(** * Coin identifier: the response formatter and the upload/analysis controller

    A shallow embedding of [src/pages/Home.tsx]: the JavaScript string
    operations the page relies on, the line classifier [formatAnalysis], and
    the event handlers [handleImageUpload] and [handleAnalyze] as small
    programs over the component's four state cells, the mount effect
    [loadDefaultContent], and the state-dependent part of the view. *)

From Stdlib Require Import String Ascii List NArith Bool Arith Lia Sorted.
Import ListNotations.

(** ** JavaScript strings *)

Module JS.

(** A JavaScript string is a sequence of UTF-16 code units.  A code unit is
    a number below 2^16; nothing below depends on the bound. *)
Definition char := N.
Definition jsstring := list char.

(** ASCII literals, as they appear in the source text. *)
Definition lit (s : string) : jsstring :=
  map N_of_ascii (list_ascii_of_string s).

Definition nl : char := 10%N.
Definition dash : char := 45%N.
Definition dot : char := 46%N.
Definition colon : char := 58%N.

(** [!s] on a string: only the empty string is falsy. *)
Definition isEmpty (s : jsstring) : bool :=
  match s with [] => true | _ :: _ => false end.

(** WhiteSpace and LineTerminator of ECMAScript: what [String.prototype.trim]
    removes and what [\s] matches. *)
Definition isWhiteSpace (c : char) : bool :=
  ((9 <=? c) && (c <=? 13) || (c =? 32) || (c =? 160) || (c =? 5760)
   || (8192 <=? c) && (c <=? 8202) || (c =? 8232) || (c =? 8233)
   || (c =? 8239) || (c =? 8287) || (c =? 12288) || (c =? 65279))%N.

(** [\d] without the unicode flag: the ten ASCII digits. *)
Definition isDigit (c : char) : bool := ((48 <=? c) && (c <=? 57))%N.

Fixpoint takeWhile (p : char -> bool) (s : jsstring) : jsstring :=
  match s with
  | c :: s' => if p c then c :: takeWhile p s' else []
  | [] => []
  end.

Fixpoint dropWhile (p : char -> bool) (s : jsstring) : jsstring :=
  match s with
  | c :: s' => if p c then dropWhile p s' else s
  | [] => []
  end.

Definition trimStart (s : jsstring) : jsstring := dropWhile isWhiteSpace s.
Definition trimEnd (s : jsstring) : jsstring := rev (trimStart (rev s)).
Definition trim (s : jsstring) : jsstring := trimEnd (trimStart s).

(** [s.startsWith(prefix)] *)
Fixpoint startsWith (prefix s : jsstring) : bool :=
  match prefix, s with
  | [], _ => true
  | p :: prefix', c :: s' => (c =? p)%N && startsWith prefix' s'
  | _ :: _, [] => false
  end.

(** [s.includes(c)] for a one-character search string. *)
Definition includes (c : char) (s : jsstring) : bool :=
  existsb (fun x => (x =? c)%N) s.

(** [s.substring(start)] *)
Definition substring (start : nat) (s : jsstring) : jsstring := skipn start s.

(** [s.split(sep)] for a one-character separator: never an empty array. *)
Fixpoint split (sep : char) (s : jsstring) : list jsstring :=
  match s with
  | [] => [[]]
  | c :: s' =>
      if (c =? sep)%N then [] :: split sep s'
      else match split sep s' with
           | p :: ps => (c :: p) :: ps
           | [] => [[c]]
           end
  end.

(** [parts.join(sep)] *)
Fixpoint join (sep : char) (parts : list jsstring) : jsstring :=
  match parts with
  | [] => []
  | [p] => p
  | p :: ps => p ++ sep :: join sep ps
  end.

(** [array.map((x, index) => f x index)], counting from [from]. *)
Fixpoint mapi {A B : Type} (f : A -> nat -> B) (from : nat) (l : list A) : list B :=
  match l with
  | [] => []
  | x :: l' => f x from :: mapi f (S from) l'
  end.

(** [array.filter(Boolean)] on an array of elements and nulls: [null] is
    falsy, an element object is truthy. *)
Fixpoint filterBoolean {A : Type} (l : list (option A)) : list A :=
  match l with
  | [] => []
  | Some x :: l' => x :: filterBoolean l'
  | None :: l' => filterBoolean l'
  end.

End JS.

Import JS.

(** ** The response formatter *)

Module Formatter.

(** The four shapes of markup [formatAnalysis] returns: an [h3] heading, a
    row with a bold label followed by a value, a row with a bullet, and a
    paragraph. *)
Inductive block : Type :=
| SectionHeader (title : jsstring)
| LabeledField (label value : jsstring)
| BulletItem (text : jsstring)
| Paragraph (text : jsstring).

(** A returned element: its React [key] (the line index) and its shape. *)
Record element : Type := mkElement { key : nat; body : block }.

(** [/[*_#`]/]: the characters removed from every line. *)
Definition isMarkdown (c : char) : bool :=
  ((c =? 42) || (c =? 95) || (c =? 35) || (c =? 96))%N.

(** [line.replace(/[*_#`]/g, '')] *)
Definition removeMarkdown (line : jsstring) : jsstring :=
  filter (fun c => negb (isMarkdown c)) line.

(** [line.replace(/[*_#`]/g, '').trim()] *)
Definition cleanLine (line : jsstring) : jsstring := trim (removeMarkdown line).

(** The match of [/^\d+\./] at the start of [s]: what follows the period. *)
Definition afterNumber (s : jsstring) : option jsstring :=
  match takeWhile isDigit s, dropWhile isDigit s with
  | _ :: _, c :: rest => if (c =? dot)%N then Some rest else None
  | _, _ => None
  end.

(** [/^\d+\./.test(s)] *)
Definition testNumber (s : jsstring) : bool :=
  match afterNumber s with Some _ => true | None => false end.

(** [s.replace(/^\d+\.\s*/, '')]: the greedy match is cut off; a string
    without a match is returned as it is. *)
Definition stripNumber (s : jsstring) : jsstring :=
  match afterNumber s with
  | Some rest => dropWhile isWhiteSpace rest
  | None => s
  end.

(** The callback of [text.split('\n').map(...)].  The destructuring
    [[label, ...valueParts]] takes the head and the tail of the array, and
    [split] never returns an empty one. *)
Definition formatLine (line : jsstring) (index : nat) : option element :=
  let cleanLine := cleanLine line in
  if isEmpty cleanLine then None
  else if testNumber cleanLine then
    Some (mkElement index (SectionHeader (stripNumber cleanLine)))
  else if startsWith (lit "-") cleanLine && includes colon cleanLine then
    let parts := split colon (substring 1 cleanLine) in
    let label := hd [] parts in
    let valueParts := tl parts in
    let value := trim (join colon valueParts) in
    Some (mkElement index (LabeledField (trim label) value))
  else if startsWith (lit "-") cleanLine then
    Some (mkElement index (BulletItem (trim (substring 1 cleanLine))))
  else
    Some (mkElement index (Paragraph cleanLine)).

Definition formatAnalysis (text : jsstring) : list element :=
  filterBoolean (mapi formatLine 0 (split nl text)).

(** Text up to the first [c], and text after it: the reading of "the first
    colon" that [split] and [join] are compared with. *)
Definition beforeFirst (c : char) (s : jsstring) : jsstring :=
  takeWhile (fun x => negb (x =? c)%N) s.

Definition afterFirst (c : char) (s : jsstring) : jsstring :=
  tl (dropWhile (fun x => negb (x =? c)%N) s).

End Formatter.

Import Formatter.

(** ** The upload/analysis controller *)

Module Controller.

(** The four [useState] cells of [Home]. *)
Record State : Type := mkState {
  image : option jsstring;
  analysis : jsstring;
  loading : bool;
  error : option jsstring
}.

(** What the handlers read of a [File]. *)
Record File : Type := mkFile { type : jsstring; size : N }.

(** A value caught by [catch (err)]: an instance of [Error] with its
    message, or any other value. *)
Inductive thrown : Type :=
| ErrorInstance (message : jsstring)
| OtherValue.

(** How the promise of [analyzeImage] settles. *)
Inductive settled : Type :=
| Fulfilled (result : jsstring)
| Rejected (err : thrown).

(** How a [FileReader] read ends. *)
Inductive readEnd : Type :=
| Loaded (result : jsstring)
| ReadFailed.

Inductive update : Type :=
| SetImage (v : option jsstring)
| SetAnalysis (v : jsstring)
| SetLoading (v : bool)
| SetError (v : option jsstring).

(** A handler body as a tree of its actions.  [ReadAsDataURL file rest k]
    starts the read, runs the remaining synchronous code [rest], and later
    runs the reader's callbacks [k] on how the read ended;
    [AwaitAnalyzeImage imageData prompt k] calls the analyzer and resumes
    with [k] when its promise settles. *)
Inductive handler : Type :=
| Return
| Do (u : update) (k : handler)
| ClearInput (k : handler)
| ReadAsDataURL (file : File) (rest : handler) (k : readEnd -> handler)
| AwaitAnalyzeImage (imageData : option jsstring) (prompt : jsstring)
                    (k : settled -> handler).

Fixpoint andThen (h1 h2 : handler) : handler :=
  match h1 with
  | Return => h2
  | Do u k => Do u (andThen k h2)
  | ClearInput k => ClearInput (andThen k h2)
  | ReadAsDataURL file rest k => ReadAsDataURL file rest (fun r => andThen (k r) h2)
  | AwaitAnalyzeImage imageData prompt k =>
      AwaitAnalyzeImage imageData prompt (fun s => andThen (k s) h2)
  end.

Definition typeMessage : jsstring := lit "Please upload a valid image file".
Definition sizeMessage : jsstring := lit "Image size should be less than 20MB".
Definition readMessage : jsstring :=
  lit "Failed to read the image file. Please try again.".
Definition fallbackMessage : jsstring :=
  lit "Failed to analyze image. Please try again.".

Definition coinPrompt : jsstring :=
  join nl
    [lit "Analyze this coin image for educational purposes and provide the following information:";
     lit "1. Coin identification (country, currency, denomination, year, series)";
     lit "2. Physical characteristics (diameter, thickness, weight, composition, edge, shape)";
     lit "3. Design elements (obverse, reverse, mint mark, designer, inscriptions)";
     lit "4. Historical context (significance, mintage, historical period, what it commemorates)";
     lit "5. Additional information (collectible value, rarity, notable features, grading)";
     lit "";
     lit "IMPORTANT: This is for educational purposes only."].

(** [err instanceof Error ? err.message : '...'] *)
Definition errorMessage (err : thrown) : jsstring :=
  match err with
  | ErrorInstance message => message
  | OtherValue => fallbackMessage
  end.

(** [handleAnalyze]: [imageData] is typed [string], but the unchecked cast
    of [reader.result] lets [null] through, hence the option.  The
    [finally] block closes both branches. *)
Definition handleAnalyze (imageData : option jsstring) : handler :=
  Do (SetLoading true)
    (Do (SetError None)
      (AwaitAnalyzeImage imageData coinPrompt (fun s =>
         andThen
           match s with
           | Fulfilled result => Do (SetAnalysis result) Return
           | Rejected err => Do (SetError (Some (errorMessage err))) Return
           end
           (Do (SetLoading false) Return)))).

(** [reader.onloadend], with [reader.result]. *)
Definition onloadend (result : option jsstring) : handler :=
  Do (SetImage result) (Do (SetError None) (handleAnalyze result)).

(** [reader.onerror] *)
Definition onerror : handler := Do (SetError (Some readMessage)) Return.

(** The events of a read: [load] then [loadend] when it succeeds, [error]
    then [loadend] (with a [null] result) when it fails.  Only [onloadend]
    and [onerror] are registered. *)
Definition readerCallbacks (r : readEnd) : handler :=
  match r with
  | Loaded base64String => onloadend (Some base64String)
  | ReadFailed => andThen onerror (onloadend None)
  end.

(** [e.target.files?.[0]] *)
Definition firstFile (files : option (list File)) : option File :=
  match files with
  | Some (file :: _) => Some file
  | _ => None
  end.

Definition handleImageUpload (files : option (list File)) : handler :=
  match firstFile files with
  | None => Return
  | Some file =>
      if negb (startsWith (lit "image/") (type file)) then
        Do (SetError (Some typeMessage)) Return
      else if (20 * 1024 * 1024 <? size file)%N then
        Do (SetError (Some sizeMessage)) Return
      else
        ReadAsDataURL file (ClearInput Return) readerCallbacks
  end.

(** The page outside the component: the file input's value, the reads
    started and the analyzer calls made so far (oldest first). *)
Record World : Type := mkWorld {
  ui : State;
  inputValue : jsstring;
  reads : list File;
  analyzerCalls : list (option jsstring * jsstring)
}.

(** The collaborators: the browser's file reader and [analyzeImage] of
    [lib/gemini]. *)
Record Env : Type := mkEnv {
  fileReader : File -> readEnd;
  analyzeImage : option jsstring -> jsstring -> settled
}.

Definition applyUpdate (u : update) (st : State) : State :=
  match u with
  | SetImage v => mkState v (analysis st) (loading st) (error st)
  | SetAnalysis v => mkState (image st) v (loading st) (error st)
  | SetLoading v => mkState (image st) (analysis st) v (error st)
  | SetError v => mkState (image st) (analysis st) (loading st) v
  end.

Fixpoint exec (env : Env) (h : handler) (w : World) : World :=
  match h with
  | Return => w
  | Do u k =>
      exec env k (mkWorld (applyUpdate u (ui w)) (inputValue w) (reads w) (analyzerCalls w))
  | ClearInput k =>
      exec env k (mkWorld (ui w) [] (reads w) (analyzerCalls w))
  | ReadAsDataURL file rest k =>
      let w1 := mkWorld (ui w) (inputValue w) (reads w ++ [file]) (analyzerCalls w) in
      exec env (k (fileReader env file)) (exec env rest w1)
  | AwaitAnalyzeImage imageData prompt k =>
      let w1 := mkWorld (ui w) (inputValue w) (reads w)
                        (analyzerCalls w ++ [(imageData, prompt)]) in
      exec env (k (analyzeImage env imageData prompt)) w1
  end.

(** [{analysis && ( ... {formatAnalysis(analysis)} ... )}]: nothing is
    rendered for an empty analysis. *)
Definition renderAnalysis (st : State) : option (list element) :=
  if isEmpty (analysis st) then None else Some (formatAnalysis (analysis st)).

End Controller.

Import Controller.

(** ** The rest of the page: the default content, the view and its events *)

Module Page.

Definition quote : char := 34%N.

Definition quoted (s : string) : jsstring := quote :: lit s ++ [quote].

(** The template literal [DEFAULT_ANALYSIS], line by line. *)
Definition DEFAULT_ANALYSIS : jsstring :=
  join nl
    [lit "1. Coin Identification:";
     lit "- Country: United States";
     lit "- Currency: US Dollar";
     lit "- Denomination: Quarter Dollar (25 cents)";
     lit "- Year: 2000";
     lit "- Series: 50 State Quarters Program";
     lit "";
     lit "2. Physical Characteristics:";
     lit "- Diameter: 24.26 mm";
     lit "- Thickness: 1.75 mm";
     lit "- Weight: 5.67 grams";
     lit "- Composition: 91.67% copper, 8.33% nickel (clad)";
     lit "- Edge: Reeded (ridged)";
     lit "- Shape: Round";
     lit "";
     lit "3. Design Elements:";
     lit "- Obverse: George Washington profile (left-facing)";
     lit "- Reverse: Massachusetts state design - The Minuteman statue";
     lit "- Mint Mark: D (Denver)";
     lit "- Designer: John Flanagan (obverse), William Cousins (reverse)";
     lit "- Inscriptions: " ++ quoted "UNITED STATES OF AMERICA" ++ lit ", "
       ++ quoted "QUARTER DOLLAR" ++ lit ", " ++ quoted "LIBERTY" ++ lit ", "
       ++ quoted "IN GOD WE TRUST";
     lit "";
     lit "4. Historical Context:";
     lit "- Significance: Part of the 50 State Quarters Program (1999-2008)";
     lit "- Mintage: 1,147,600,000 (Denver mint)";
     lit "- Historical Period: Early 21st century American coinage";
     lit "- Commemorates: Massachusetts, the 6th state to join the Union";
     lit "- Release Date: January 3, 2000";
     lit "";
     lit "5. Additional Information:";
     lit "- Collectible Value: Common circulation coin, $0.25-$1 in uncirculated condition";
     lit "- Rarity: Common";
     lit "- Notable Features: The Minuteman statue represents the state's role in the American Revolution";
     lit "- Grading: Approximately AU (About Uncirculated)";
     lit "- Similar Coins: Other State Quarters in the series"].

Definition loadMessage : jsstring := lit "Failed to load default image".

(** What [fetch(DEFAULT_IMAGE)] resolves to: [response.ok], and how
    [response.blob()] followed by the reader's read ends ([None] when
    [blob()] rejects). *)
Record response : Type := mkResponse { ok : bool; blob : option readEnd }.

(** [reader.onloadend] of the default load, with [reader.result]. *)
Definition defaultOnloadend (base64data : option jsstring) : handler :=
  Do (SetImage base64data)
    (Do (SetAnalysis DEFAULT_ANALYSIS) (Do (SetLoading false) Return)).

(** [reader.onerror] of the default load. *)
Definition defaultOnerror : handler :=
  Do (SetError (Some loadMessage)) (Do (SetLoading false) Return).

(** The [catch] block of [loadDefaultContent] (the console message left
    out). *)
Definition defaultCatch : handler :=
  Do (SetError (Some loadMessage)) (Do (SetLoading false) Return).

(** [loadDefaultContent], the mount effect; [fetched] is [None] when [fetch]
    rejects.  As for an upload, a failed read fires [error] and then
    [loadend]. *)
Definition loadDefaultContent (fetched : option response) : handler :=
  Do (SetLoading true)
    match fetched with
    | None => defaultCatch
    | Some resp =>
        if negb (ok resp) then defaultCatch
        else match blob resp with
             | None => defaultCatch
             | Some (Loaded base64data) => defaultOnloadend (Some base64data)
             | Some ReadFailed => andThen defaultOnerror (defaultOnloadend None)
             end
    end.

(** Truthiness of a [string | null] cell: [null] and the empty string are
    falsy. *)
Definition truthy (v : option jsstring) : bool :=
  match v with
  | Some (_ :: _) => true
  | _ => false
  end.

Inductive buttonLabel : Type := Analyzing | IdentifyCoin.

(** The block rendered under [{image && ...}]: the picture and the identify
    button. *)
Record preview : Type := mkPreview {
  src : jsstring;
  disabled : bool;
  label : buttonLabel
}.

(** The state-dependent part of what [Home] returns. *)
Record view : Type := mkView {
  errorBanner : option jsstring;
  spinner : bool;
  previewPane : option preview;
  results : option (list element)
}.

Definition render (st : State) : view :=
  mkView
    (if truthy (error st) then error st else None)
    (loading st && negb (truthy (image st)))
    (match image st with
     | Some (c :: s) =>
         Some (mkPreview (c :: s) (loading st)
                         (if loading st then Analyzing else IdentifyCoin))
     | _ => None
     end)
    (renderAnalysis st).

(** A click on the identify button of the rendered view:
    [onClick={() => handleAnalyze(image)}], and nothing when the button is
    absent or disabled. *)
Definition clickIdentify (st : State) : handler :=
  match previewPane (render st) with
  | Some p => if disabled p then Return else handleAnalyze (Some (src p))
  | None => Return
  end.

(** What can happen to the page. *)
Inductive event : Type :=
| LoadDefault (fetched : option response)
| Upload (files : option (list File))
| Identify.

Definition dispatch (ev : event) (st : State) : handler :=
  match ev with
  | LoadDefault fetched => loadDefaultContent fetched
  | Upload files => handleImageUpload files
  | Identify => clickIdentify st
  end.

Definition step (env : Env) (w : World) (ev : event) : World :=
  exec env (dispatch ev (ui w)) w.

Definition run (env : Env) (evs : list event) (w : World) : World :=
  fold_left (step env) evs w.

(** The page before anything happened: the initial values of the four
    [useState] cells. *)
Definition initial : World := mkWorld (mkState None [] false None) [] [] [].

(** The strings a block displays. *)
Definition blockTexts (b : block) : list jsstring :=
  match b with
  | SectionHeader title => [title]
  | LabeledField label value => [label; value]
  | BulletItem text => [text]
  | Paragraph text => [text]
  end.

(** An element with its key moved up by [n] lines. *)
Definition shiftKey (n : nat) (e : element) : element :=
  mkElement (n + key e) (body e).

(** The literal of the first [span] of a bullet row, as the source file has
    it: the code units U+00E2, U+20AC, U+00A2. *)
Definition bulletGlyph : jsstring := [226; 8364; 162]%N.

(** The text nodes a block puts on the page: the heading's title; the label
    with the colon the markup writes after it, and the value; the bullet
    glyph and the item's text; the paragraph's text. *)
Definition displayedTexts (b : block) : list jsstring :=
  match b with
  | SectionHeader title => [title]
  | LabeledField label value => [label ++ [colon]; value]
  | BulletItem text => [bulletGlyph; text]
  | Paragraph text => [text]
  end.

(** The message a caught value carries, read as the specification words it:
    a value that is not an [Error] carries none, and neither does an [Error]
    whose message is empty. *)
Definition carriedMessage (err : thrown) : option jsstring :=
  match err with
  | ErrorInstance (c :: message) => Some (c :: message)
  | ErrorInstance [] => None
  | OtherValue => None
  end.

(** The error state the specification's wording asks for: the carried
    message, or the fallback when none is carried.  Compared with
    [errorMessage], which is what the code computes. *)
Definition specifiedErrorMessage (err : thrown) : jsstring :=
  match carriedMessage err with
  | Some message => message
  | None => fallbackMessage
  end.

(** A handler suspended at a read or at the analyzer call, with the code that
    runs when the answer comes. *)
Inductive pending : Type :=
| PendingRead (file : File) (k : readEnd -> handler)
| PendingAnalyze (imageData : option jsstring) (prompt : jsstring)
                 (k : settled -> handler).

(** One task: a handler run up to the points where it suspends.  Unlike
    [exec], it does not go on with the callbacks and continuations; they are
    returned, and other tasks may run before them. *)
Fixpoint runSync (h : handler) (w : World) : World * list pending :=
  match h with
  | Return => (w, [])
  | Do u k =>
      runSync k (mkWorld (applyUpdate u (ui w)) (inputValue w) (reads w) (analyzerCalls w))
  | ClearInput k =>
      runSync k (mkWorld (ui w) [] (reads w) (analyzerCalls w))
  | ReadAsDataURL file rest k =>
      let w1 := mkWorld (ui w) (inputValue w) (reads w ++ [file]) (analyzerCalls w) in
      (fst (runSync rest w1), snd (runSync rest w1) ++ [PendingRead file k])
  | AwaitAnalyzeImage imageData prompt k =>
      (mkWorld (ui w) (inputValue w) (reads w)
               (analyzerCalls w ++ [(imageData, prompt)]),
       [PendingAnalyze imageData prompt k])
  end.

(** The code a suspended handler goes on with, once the environment has
    answered. *)
Definition resume (env : Env) (p : pending) : handler :=
  match p with
  | PendingRead file k => k (fileReader env file)
  | PendingAnalyze imageData prompt k => k (analyzeImage env imageData prompt)
  end.

End Page.

Import Page.

Example format_country :
  formatAnalysis (lit "- Country: United States")
  = [mkElement 0 (LabeledField (lit "Country") (lit "United States"))].
Proof. vm_compute. reflexivity. Qed.

Example format_header :
  formatAnalysis (lit "1. Coin Identification:")
  = [mkElement 0 (SectionHeader (lit "Coin Identification:"))].
Proof. vm_compute. reflexivity. Qed.

Example format_bullet :
  formatAnalysis (lit "- Reeded (ridged)")
  = [mkElement 0 (BulletItem (lit "Reeded (ridged)"))].
Proof. vm_compute. reflexivity. Qed.

Example format_mixed :
  formatAnalysis (join nl [lit "## 2. Physical **Characteristics**:"; lit "  ";
                           lit "- Ratio: 3:1"; lit "** __"; lit "plain text"])
  = [mkElement 0 (SectionHeader (lit "Physical Characteristics:"));
     mkElement 2 (LabeledField (lit "Ratio") (lit "3:1"));
     mkElement 4 (Paragraph (lit "plain text"))].
Proof. vm_compute. reflexivity. Qed.

(** ** Facts about the string operations *)

Section StringFacts.

Variable c : char.

Lemma split_nonempty (s : jsstring) : split c s <> [].
Proof.
  destruct s as [|x s]; simpl; [discriminate|].
  destruct (x =? c)%N; [discriminate|].
  destruct (split c s); discriminate.
Qed.

Lemma join_cons (p : jsstring) (ps : list jsstring) :
  ps <> [] -> join c (p :: ps) = p ++ c :: join c ps.
Proof. destruct ps; [congruence | reflexivity]. Qed.

Lemma join_split (s : jsstring) : join c (split c s) = s.
Proof.
  induction s as [|x s IH]; [reflexivity|].
  simpl split. destruct (N.eqb_spec x c) as [->|Hne].
  - rewrite join_cons by apply split_nonempty. simpl. now rewrite IH.
  - pose proof (split_nonempty s) as Hs.
    destruct (split c s) as [|p ps]; [congruence|].
    destruct ps as [|q ps]; simpl in *; now rewrite <- IH.
Qed.

Lemma split_first (s : jsstring) :
  includes c s = true ->
  split c s = beforeFirst c s :: split c (afterFirst c s).
Proof.
  unfold beforeFirst, afterFirst, includes.
  induction s as [|x s IH]; simpl; [discriminate|].
  destruct (x =? c)%N; simpl; [reflexivity|].
  intros H. rewrite (IH H). reflexivity.
Qed.

Lemma first_decomposition (s : jsstring) :
  includes c s = true ->
  s = beforeFirst c s ++ c :: afterFirst c s.
Proof.
  unfold beforeFirst, afterFirst, includes.
  induction s as [|x s IH]; simpl; [discriminate|].
  destruct (N.eqb_spec x c) as [->|Hne]; simpl; [reflexivity|].
  intros H. now rewrite <- (IH H).
Qed.

Lemma beforeFirst_excludes (s : jsstring) :
  includes c (beforeFirst c s) = false.
Proof.
  unfold beforeFirst, includes.
  induction s as [|x s IH]; simpl; [reflexivity|].
  destruct (x =? c)%N eqn:E; simpl; [reflexivity|].
  now rewrite E.
Qed.

End StringFacts.

Lemma takeWhile_app (p : char -> bool) (s1 s2 : jsstring) :
  forallb p s1 = true ->
  takeWhile p (s1 ++ s2) = s1 ++ takeWhile p s2.
Proof.
  induction s1 as [|x s1 IH]; simpl; [reflexivity|].
  intros H. apply andb_prop in H as [Hx Hs]. rewrite Hx. now rewrite IH.
Qed.

Lemma dropWhile_app (p : char -> bool) (s1 s2 : jsstring) :
  forallb p s1 = true ->
  dropWhile p (s1 ++ s2) = dropWhile p s2.
Proof.
  induction s1 as [|x s1 IH]; simpl; [reflexivity|].
  intros H. apply andb_prop in H as [Hx Hs]. rewrite Hx. now apply IH.
Qed.

Lemma takeWhile_dropWhile (p : char -> bool) (s : jsstring) :
  takeWhile p s ++ dropWhile p s = s.
Proof.
  induction s as [|x s IH]; simpl; [reflexivity|].
  destruct (p x); simpl; [now rewrite IH | reflexivity].
Qed.

Lemma takeWhile_all (p : char -> bool) (s : jsstring) :
  forallb p (takeWhile p s) = true.
Proof.
  induction s as [|x s IH]; simpl; [reflexivity|].
  destruct (p x) eqn:E; simpl; [now rewrite E | reflexivity].
Qed.

Lemma dropWhile_length (p : char -> bool) (s : jsstring) :
  length (dropWhile p s) <= length s.
Proof.
  induction s as [|x s IH]; simpl; [lia|].
  destruct (p x); simpl; lia.
Qed.

Lemma dropWhile_idempotent (p : char -> bool) (s : jsstring) :
  dropWhile p (dropWhile p s) = dropWhile p s.
Proof.
  induction s as [|x s IH]; simpl; [reflexivity|].
  destruct (p x) eqn:E; [exact IH|]. simpl. now rewrite E.
Qed.

(** A string with nothing to trim at its end keeps that property when a
    prefix is cut off. *)
Lemma trimEnd_suffix (prefix s : jsstring) :
  trimEnd (prefix ++ s) = prefix ++ s -> trimEnd s = s.
Proof.
  unfold trimEnd, trimStart. intros H.
  apply (f_equal (@rev char)) in H. rewrite rev_involutive, rev_app_distr in H.
  rewrite <- (rev_involutive s) at 2. f_equal.
  destruct (rev s) as [|x t]; [reflexivity|].
  simpl in *. destruct (isWhiteSpace x); [|reflexivity].
  exfalso. pose proof (dropWhile_length isWhiteSpace (t ++ rev prefix)) as Hl.
  rewrite H in Hl. simpl in Hl. lia.
Qed.

Lemma trimEnd_trim (s : jsstring) : trimEnd (trim s) = trim s.
Proof.
  unfold trim, trimEnd, trimStart. rewrite rev_involutive.
  now rewrite dropWhile_idempotent.
Qed.

Lemma trimStart_suffix_trimmed (s prefix rest : jsstring) :
  trim s = prefix ++ rest -> trim rest = trimStart rest.
Proof.
  intros H. unfold trim.
  pose proof (trimEnd_trim s) as Ht. rewrite H in Ht.
  apply trimEnd_suffix in Ht.
  rewrite <- (takeWhile_dropWhile isWhiteSpace rest) in Ht.
  now apply trimEnd_suffix in Ht.
Qed.

(** ** The regular expression [/^\d+\./] *)

(** [afterNumber] finds a match exactly when the string is a non-empty run
    of digits, a period, and a rest; the rest is then what it returns. *)
Lemma afterNumber_match (digits rest : jsstring) :
  digits <> [] -> forallb isDigit digits = true ->
  afterNumber (digits ++ dot :: rest) = Some rest.
Proof.
  intros Hne Hd. unfold afterNumber.
  rewrite takeWhile_app, dropWhile_app by assumption.
  destruct digits as [|d digits]; [congruence|]. reflexivity.
Qed.

Lemma afterNumber_inv (s rest : jsstring) :
  afterNumber s = Some rest ->
  exists digits, digits <> [] /\ forallb isDigit digits = true
                 /\ s = digits ++ dot :: rest.
Proof.
  unfold afterNumber. intros H.
  pose proof (takeWhile_dropWhile isDigit s) as Hs.
  pose proof (takeWhile_all isDigit s) as Hall.
  destruct (takeWhile isDigit s) as [|d ds] eqn:Et; [discriminate|].
  destruct (dropWhile isDigit s) as [|x r]; [discriminate|].
  destruct (N.eqb_spec x dot) as [->|]; [|discriminate].
  injection H as <-. exists (d :: ds). repeat split; [discriminate | assumption | now symmetry].
Qed.

Lemma testNumber_dash (s : jsstring) :
  startsWith (lit "-") s = true -> testNumber s = false.
Proof.
  destruct s as [|x s]; simpl; [discriminate|].
  rewrite andb_true_r. intros H. apply N.eqb_eq in H. subst x. reflexivity.
Qed.

(** ** Facts about [map] with an index and [filter(Boolean)] *)

Section Mapi.

Variables A B : Type.
Variable f : A -> nat -> option B.

Lemma filterBoolean_mapi_In (l : list A) (from i : nat) (x : A) (e : B) :
  nth_error l i = Some x -> f x (from + i) = Some e ->
  In e (filterBoolean (mapi f from l)).
Proof.
  revert from i. induction l as [|y l IH]; intros from i Hn Hf.
  - destruct i; discriminate.
  - destruct i as [|i]; simpl in *.
    + injection Hn as ->. rewrite Nat.add_0_r in Hf. rewrite Hf. now left.
    + assert (In e (filterBoolean (mapi f (S from) l))) as HI.
      { apply (IH (S from) i Hn). now rewrite Nat.add_succ_l, <- Nat.add_succ_r. }
      destruct (f y from); [now right | assumption].
Qed.

Lemma filterBoolean_mapi_inv (l : list A) (from : nat) (e : B) :
  In e (filterBoolean (mapi f from l)) ->
  exists i x, nth_error l i = Some x /\ f x (from + i) = Some e.
Proof.
  revert from. induction l as [|y l IH]; intros from HI; simpl in HI; [contradiction|].
  assert (In e (filterBoolean (mapi f (S from) l)) ->
          exists i x, nth_error (y :: l) i = Some x /\ f x (from + i) = Some e) as Htl.
  { intros H. destruct (IH _ H) as (i & x & Hn & Hf).
    exists (S i), x. split; [assumption|]. now rewrite Nat.add_succ_r. }
  destruct (f y from) as [b|] eqn:E; [|now apply Htl].
  destruct HI as [<-|HI]; [|now apply Htl].
  exists 0, y. split; [reflexivity|]. now rewrite Nat.add_0_r.
Qed.

End Mapi.

(** ** Facts about the formatter *)

Lemma formatLine_key (line : jsstring) (index : nat) (e : element) :
  formatLine line index = Some e -> key e = index.
Proof.
  unfold formatLine. intros H.
  repeat match type of H with
         | (if ?b then _ else _) = _ => destruct b
         end; inversion H; reflexivity.
Qed.

Lemma formatLine_empty (line : jsstring) (index : nat) :
  formatLine line index = None <-> cleanLine line = [].
Proof.
  unfold formatLine. destruct (cleanLine line) as [|x s] eqn:E; simpl.
  - split; reflexivity.
  - split; [|discriminate]. intros H.
    repeat match type of H with
           | (if ?b then _ else _) = _ => destruct b
           end; discriminate.
Qed.

Lemma formatAnalysis_In (text line : jsstring) (index : nat) (e : element) :
  nth_error (split nl text) index = Some line ->
  formatLine line index = Some e ->
  In e (formatAnalysis text).
Proof.
  intros Hn Hf. unfold formatAnalysis.
  now apply filterBoolean_mapi_In with (i := index) (x := line).
Qed.

Lemma formatAnalysis_inv (text : jsstring) (e : element) :
  In e (formatAnalysis text) ->
  exists line, nth_error (split nl text) (key e) = Some line
               /\ formatLine line (key e) = Some e.
Proof.
  intros H. apply filterBoolean_mapi_inv in H as (i & x & Hn & Hf).
  simpl in Hf. rewrite (formatLine_key _ _ _ Hf). now exists x.
Qed.

Lemma formatLine_labeled (line : jsstring) (index : nat) :
  startsWith (lit "-") (cleanLine line) = true ->
  includes colon (cleanLine line) = true ->
  formatLine line index
  = Some (mkElement index
            (LabeledField
               (trim (beforeFirst colon (substring 1 (cleanLine line))))
               (trim (afterFirst colon (substring 1 (cleanLine line)))))).
Proof.
  intros Hd Hc. unfold formatLine.
  rewrite (testNumber_dash _ Hd), Hd, Hc.
  destruct (cleanLine line) as [|x s]; [discriminate|]. simpl isEmpty. cbv iota.
  simpl andb. cbv iota. simpl substring.
  assert (includes colon s = true) as Hs.
  { simpl in Hd. rewrite andb_true_r in Hd. apply N.eqb_eq in Hd. subst x. exact Hc. }
  rewrite (split_first _ _ Hs). simpl hd. simpl tl. now rewrite join_split.
Qed.

Lemma formatLine_bullet (line : jsstring) (index : nat) :
  startsWith (lit "-") (cleanLine line) = true ->
  includes colon (cleanLine line) = false ->
  formatLine line index
  = Some (mkElement index (BulletItem (trim (substring 1 (cleanLine line))))).
Proof.
  intros Hd Hc. unfold formatLine.
  rewrite (testNumber_dash _ Hd), Hd, Hc.
  destruct (cleanLine line) as [|x s]; [discriminate|]. reflexivity.
Qed.

Lemma formatLine_header (line digits rest : jsstring) (index : nat) :
  digits <> [] -> forallb isDigit digits = true ->
  cleanLine line = digits ++ dot :: rest ->
  formatLine line index
  = Some (mkElement index (SectionHeader (trimStart rest))).
Proof.
  intros Hne Hd Hc. unfold formatLine, testNumber, stripNumber.
  rewrite Hc, (afterNumber_match digits rest Hne Hd).
  destruct digits; [congruence | reflexivity].
Qed.

Lemma formatAnalysis_keys_from (lines : list jsstring) (from : nat) :
  map key (filterBoolean (mapi formatLine from lines))
  = map fst (filter (fun p => negb (isEmpty (cleanLine (snd p))))
               (combine (seq from (length lines)) lines)).
Proof.
  revert from. induction lines as [|line lines IH]; intros from; [reflexivity|].
  simpl. destruct (formatLine line from) as [e|] eqn:E.
  - assert (cleanLine line <> []) as Hne.
    { intros H. apply (formatLine_empty line from) in H. congruence. }
    destruct (cleanLine line); [congruence|]. simpl.
    now rewrite (formatLine_key _ _ _ E), IH.
  - apply formatLine_empty in E. rewrite E. simpl. apply IH.
Qed.

Lemma filterBoolean_length_from (lines : list jsstring) (from : nat) :
  length (filterBoolean (mapi formatLine from lines))
  = length (filter (fun line => negb (isEmpty (cleanLine line))) lines).
Proof.
  revert from. induction lines as [|line lines IH]; intros from; [reflexivity|].
  simpl. destruct (formatLine line from) as [e|] eqn:E.
  - assert (cleanLine line <> []) as Hne.
    { intros H. apply (formatLine_empty line from) in H. congruence. }
    destruct (cleanLine line); [congruence|]. simpl. now rewrite IH.
  - apply formatLine_empty in E. rewrite E. simpl. apply IH.
Qed.

(** ** The formatter's properties *)

(** C1: a line whose cleaned form starts with [-] and contains a [:] yields a
    LabeledField.  With [body] the cleaned line after its leading dash, the
    label is the trimmed text of [body] before its first colon and the value
    is the trimmed remainder after that colon, further colons included; the
    field is the block the formatter emits for that line of the text. *)
Theorem labeled_field_line (text line : jsstring) (index : nat) :
  nth_error (split nl text) index = Some line ->
  startsWith (lit "-") (cleanLine line) = true ->
  includes colon (cleanLine line) = true ->
  let body := substring 1 (cleanLine line) in
  let label := beforeFirst colon body in
  let value := afterFirst colon body in
  cleanLine line = dash :: body
  /\ body = label ++ colon :: value
  /\ includes colon label = false
  /\ formatLine line index
     = Some (mkElement index (LabeledField (trim label) (trim value)))
  /\ In (mkElement index (LabeledField (trim label) (trim value)))
        (formatAnalysis text).
Proof.
  intros Hn Hd Hc body label value.
  assert (cleanLine line = dash :: body) as Hclean.
  { subst body. destruct (cleanLine line) as [|x s]; [discriminate|].
    simpl in Hd. rewrite andb_true_r in Hd. apply N.eqb_eq in Hd. now subst x. }
  assert (includes colon body = true) as Hb.
  { rewrite Hclean in Hc. exact Hc. }
  pose proof (formatLine_labeled line index Hd Hc) as Hf.
  repeat split.
  - exact Hclean.
  - apply first_decomposition, Hb.
  - apply beforeFirst_excludes.
  - exact Hf.
  - exact (formatAnalysis_In text line index _ Hn Hf).
Qed.

Lemma labeled_field_line_witness :
  In (mkElement 0 (LabeledField (lit "Country") (lit "United States")))
     (formatAnalysis (lit "- Country: United States")).
Proof.
  apply (labeled_field_line (lit "- Country: United States")
           (lit "- Country: United States") 0);
    reflexivity.
Defined.

(** C2: a line whose cleaned form matches [^\d+\.], that is, a non-empty run
    of digits, a period and a rest, yields a SectionHeader whose title is
    that rest without its leading whitespace, which is the rest trimmed at
    both ends; the header is the block the formatter emits for that line of
    the text. *)
Theorem section_header_line (text line digits rest : jsstring) (index : nat) :
  nth_error (split nl text) index = Some line ->
  digits <> [] ->
  forallb isDigit digits = true ->
  cleanLine line = digits ++ dot :: rest ->
  testNumber (cleanLine line) = true
  /\ trimStart rest = trim rest
  /\ formatLine line index
     = Some (mkElement index (SectionHeader (trimStart rest)))
  /\ In (mkElement index (SectionHeader (trimStart rest))) (formatAnalysis text).
Proof.
  intros Hn Hne Hd Hc.
  pose proof (formatLine_header line digits rest index Hne Hd Hc) as Hf.
  repeat split.
  - unfold testNumber. now rewrite Hc, (afterNumber_match digits rest Hne Hd).
  - symmetry. apply (trimStart_suffix_trimmed (removeMarkdown line) (digits ++ [dot])).
    rewrite <- app_assoc. exact Hc.
  - exact Hf.
  - exact (formatAnalysis_In text line index _ Hn Hf).
Qed.

Lemma section_header_line_witness :
  In (mkElement 0 (SectionHeader (lit "Coin Identification:")))
     (formatAnalysis (lit "1. Coin Identification:")).
Proof.
  apply (section_header_line (lit "1. Coin Identification:")
           (lit "1. Coin Identification:")
           (lit "1") (lit " Coin Identification:") 0);
    [reflexivity | discriminate | reflexivity | reflexivity].
Defined.

(** C3: a line whose cleaned form starts with [-] never matches [^\d+\.];
    when it contains no [:] it yields a BulletItem carrying the trimmed text
    after the leading dash, and when it does contain a [:] the block emitted
    for that line is not a BulletItem. *)
Theorem bullet_item_line (text line : jsstring) (index : nat) :
  nth_error (split nl text) index = Some line ->
  startsWith (lit "-") (cleanLine line) = true ->
  testNumber (cleanLine line) = false
  /\ (includes colon (cleanLine line) = false ->
      formatLine line index
      = Some (mkElement index (BulletItem (trim (substring 1 (cleanLine line)))))
      /\ In (mkElement index (BulletItem (trim (substring 1 (cleanLine line)))))
            (formatAnalysis text))
  /\ (includes colon (cleanLine line) = true ->
      forall e, In e (formatAnalysis text) -> key e = index ->
                forall t, body e <> BulletItem t).
Proof.
  intros Hn Hd. split; [exact (testNumber_dash _ Hd)|]. split.
  - intros Hc. pose proof (formatLine_bullet line index Hd Hc) as Hf.
    split; [exact Hf | exact (formatAnalysis_In text line index _ Hn Hf)].
  - intros Hc e He Hk t Hb.
    apply formatAnalysis_inv in He as (line' & Hn' & Hf').
    rewrite Hk in Hn', Hf'. rewrite Hn in Hn'. injection Hn' as <-.
    rewrite (formatLine_labeled line index Hd Hc) in Hf'.
    injection Hf' as <-. discriminate Hb.
Qed.

Lemma bullet_item_line_witness :
  In (mkElement 0 (BulletItem (lit "Reeded (ridged)")))
     (formatAnalysis (lit "- Reeded (ridged)"))
  /\ forall e, In e (formatAnalysis (lit "- Edge: Reeded")) -> key e = 0 ->
               forall t, body e <> BulletItem t.
Proof.
  split.
  - apply (bullet_item_line (lit "- Reeded (ridged)")
             (lit "- Reeded (ridged)") 0);
      reflexivity.
  - apply (bullet_item_line (lit "- Edge: Reeded")
             (lit "- Edge: Reeded") 0);
      reflexivity.
Defined.

(** C4: the keys of the emitted blocks, in output order, are exactly the
    indexes of the lines that are non-empty after cleaning, in line order;
    so there is one block for each such line and none for a line that is
    empty after cleaning, and every block is the one computed from the line
    its key names. *)
Theorem one_block_per_nonempty_line (text : jsstring) :
  let lines := split nl text in
  let nonEmpty := fun line => negb (isEmpty (cleanLine line)) in
  map key (formatAnalysis text)
  = map fst (filter (fun p => nonEmpty (snd p))
               (combine (seq 0 (length lines)) lines))
  /\ length (formatAnalysis text) = length (filter nonEmpty lines)
  /\ Forall (fun e => exists line,
                 nth_error lines (key e) = Some line
                 /\ nonEmpty line = true
                 /\ formatLine line (key e) = Some e)
       (formatAnalysis text).
Proof.
  intros lines nonEmpty. repeat split.
  - apply formatAnalysis_keys_from.
  - apply filterBoolean_length_from.
  - apply Forall_forall. intros e He.
    apply formatAnalysis_inv in He as (line & Hn & Hf).
    exists line. repeat split; try assumption.
    subst nonEmpty. simpl. destruct (cleanLine line) eqn:E; [|reflexivity].
    apply (formatLine_empty line (key e)) in E. congruence.
Qed.

(** ** The controller's properties *)

Lemma exec_handleAnalyze (env : Env) (imageData : option jsstring) (w : World) :
  exec env (handleAnalyze imageData) w
  = mkWorld
      (match analyzeImage env imageData coinPrompt with
       | Fulfilled result => mkState (image (ui w)) result false None
       | Rejected err => mkState (image (ui w)) (analysis (ui w)) false
                                 (Some (errorMessage err))
       end)
      (inputValue w) (reads w) (analyzerCalls w ++ [(imageData, coinPrompt)]).
Proof.
  unfold handleAnalyze. simpl exec.
  destruct (analyzeImage env imageData coinPrompt); reflexivity.
Qed.

(** C6: after [handleAnalyze] the loading flag is false however the analyzer
    call ended.  When the call fails with an [Error], the error state is that
    error's message as it is, also when it is empty; when it fails with a value that is not an
    [Error], the error state is the generic fallback message; in both cases
    the analysis text is kept.  When the call succeeds, the analysis text is
    the result and the error state is empty. *)
Theorem analyze_error_and_loading (env : Env) (imageData : option jsstring) (w : World) :
  let w' := exec env (handleAnalyze imageData) w in
  loading (ui w') = false
  /\ match analyzeImage env imageData coinPrompt with
     | Rejected (ErrorInstance message) =>
         error (ui w') = Some message /\ analysis (ui w') = analysis (ui w)
     | Rejected OtherValue =>
         error (ui w') = Some fallbackMessage /\ analysis (ui w') = analysis (ui w)
     | Fulfilled result =>
         error (ui w') = None /\ analysis (ui w') = result
     end.
Proof.
  intros w'. subst w'. rewrite exec_handleAnalyze.
  destruct (analyzeImage env imageData coinPrompt) as [result|[message|]];
    simpl; repeat split; reflexivity.
Qed.

(** C6, as worded, fails where an [Error] has an empty message: such a
    failure carries no message, so the wording asks for the fallback, but the
    code takes the branch of [instanceof Error] and the error state becomes
    the empty string. *)
Lemma analyze_empty_message_no_fallback :
  carriedMessage (ErrorInstance []) = None
  /\ specifiedErrorMessage (ErrorInstance []) = fallbackMessage
  /\ error (ui (exec (mkEnv (fun _ => ReadFailed)
                            (fun _ _ => Rejected (ErrorInstance [])))
                     (handleAnalyze (Some (lit "data:image/png;base64,AA==")))
                     initial))
     = Some []
  /\ error (ui (exec (mkEnv (fun _ => ReadFailed)
                            (fun _ _ => Rejected (ErrorInstance [])))
                     (handleAnalyze (Some (lit "data:image/png;base64,AA==")))
                     initial))
     <> Some (specifiedErrorMessage (ErrorInstance [])).
Proof.
  repeat split. vm_compute. discriminate.
Qed.

Example analyze_quota_exceeded (imageData : option jsstring) (w : World) :
  let env := mkEnv (fun _ => ReadFailed)
                   (fun _ _ => Rejected (ErrorInstance (lit "quota exceeded"))) in
  error (ui (exec env (handleAnalyze imageData) w)) = Some (lit "quota exceeded")
  /\ loading (ui (exec env (handleAnalyze imageData) w)) = false.
Proof. split; reflexivity. Qed.

Lemma handleImageUpload_type (file : File) (others : list File) :
  startsWith (lit "image/") (type file) = false ->
  handleImageUpload (Some (file :: others)) = Do (SetError (Some typeMessage)) Return.
Proof. intros H. unfold handleImageUpload. simpl firstFile. cbv beta iota. now rewrite H. Qed.

Lemma handleImageUpload_size (file : File) (others : list File) :
  startsWith (lit "image/") (type file) = true ->
  (20 * 1024 * 1024 < size file)%N ->
  handleImageUpload (Some (file :: others)) = Do (SetError (Some sizeMessage)) Return.
Proof.
  intros Ht Hs. unfold handleImageUpload. simpl firstFile. cbv beta iota. rewrite Ht. simpl negb. cbv iota.
  apply N.ltb_lt in Hs. now rewrite Hs.
Qed.

Lemma handleImageUpload_valid (file : File) (others : list File) :
  startsWith (lit "image/") (type file) = true ->
  (size file <= 20 * 1024 * 1024)%N ->
  handleImageUpload (Some (file :: others))
  = ReadAsDataURL file (ClearInput Return) readerCallbacks.
Proof.
  intros Ht Hs. unfold handleImageUpload. simpl firstFile. cbv beta iota. rewrite Ht. simpl negb. cbv iota.
  apply N.ltb_ge in Hs. now rewrite Hs.
Qed.

(** C7: for a file whose type starts with [image/], the handler is the
    single action that sets the size error exactly when the size exceeds
    20*1024*1024 bytes; it then leaves the analyzer uncalled and starts no
    read.  A file within the limit passes on to the read. *)
Theorem size_validation (env : Env) (file : File) (others : list File) (w : World) :
  startsWith (lit "image/") (type file) = true ->
  let h := handleImageUpload (Some (file :: others)) in
  (h = Do (SetError (Some sizeMessage)) Return <-> (20 * 1024 * 1024 < size file)%N)
  /\ (h = ReadAsDataURL file (ClearInput Return) readerCallbacks
      <-> (size file <= 20 * 1024 * 1024)%N)
  /\ (h = Do (SetError (Some sizeMessage)) Return ->
      error (ui (exec env h w)) = Some sizeMessage
      /\ analyzerCalls (exec env h w) = analyzerCalls w
      /\ reads (exec env h w) = reads w).
Proof.
  intros Ht h.
  destruct (N.lt_ge_cases (20 * 1024 * 1024) (size file)) as [Hs|Hs].
  - pose proof (handleImageUpload_size file others Ht Hs) as Hh. fold h in Hh.
    split; [|split].
    + split; intros _; assumption.
    + split; [rewrite Hh; discriminate | lia].
    + intros _. rewrite Hh. repeat split.
  - pose proof (handleImageUpload_valid file others Ht Hs) as Hh. fold h in Hh.
    split; [|split].
    + split; [rewrite Hh; discriminate | lia].
    + split; intros _; assumption.
    + rewrite Hh; discriminate.
Qed.

Lemma size_validation_witness :
  handleImageUpload (Some [mkFile (lit "image/jpeg") (25 * 1024 * 1024)])
  = Do (SetError (Some sizeMessage)) Return
  /\ handleImageUpload (Some [mkFile (lit "image/jpeg") (20 * 1024 * 1024)])
     = ReadAsDataURL (mkFile (lit "image/jpeg") (20 * 1024 * 1024))
                     (ClearInput Return) readerCallbacks.
Proof.
  pose (env := mkEnv (fun _ => ReadFailed) (fun _ _ => Rejected OtherValue)).
  pose (w := mkWorld (mkState None [] false None) [] [] []).
  split.
  - apply (size_validation env (mkFile (lit "image/jpeg") (25 * 1024 * 1024)) [] w);
      [reflexivity | vm_compute; reflexivity].
  - apply (size_validation env (mkFile (lit "image/jpeg") (20 * 1024 * 1024)) [] w);
      [reflexivity | vm_compute; discriminate].
Defined.

(** C8: for a file whose type does not start with [image/], whatever its
    size, the handler is the single action that sets the type error, not the
    size error; the analyzer is not called and no read is started. *)
Theorem type_validation (env : Env) (file : File) (others : list File) (w : World) :
  startsWith (lit "image/") (type file) = false ->
  let h := handleImageUpload (Some (file :: others)) in
  h = Do (SetError (Some typeMessage)) Return
  /\ h <> Do (SetError (Some sizeMessage)) Return
  /\ error (ui (exec env h w)) = Some typeMessage
  /\ analyzerCalls (exec env h w) = analyzerCalls w
  /\ reads (exec env h w) = reads w.
Proof.
  intros Ht h. pose proof (handleImageUpload_type file others Ht) as Hh.
  fold h in Hh. rewrite Hh. repeat split. discriminate.
Qed.

Lemma type_validation_witness :
  let w := mkWorld (mkState None [] false None) [] [] [] in
  let env := mkEnv (fun _ => Loaded (lit "data:text/plain;base64,aGk="))
                   (fun _ _ => Fulfilled (lit "1. Coin")) in
  let h := handleImageUpload (Some [mkFile (lit "text/plain") (25 * 1024 * 1024)]) in
  error (ui (exec env h w)) = Some typeMessage
  /\ analyzerCalls (exec env h w) = [].
Proof.
  intros w env h.
  split; apply (type_validation env (mkFile (lit "text/plain") (25 * 1024 * 1024)) [] w);
    reflexivity.
Defined.

Lemma exec_Do (env : Env) (u : update) (k : handler) (w : World) :
  exec env (Do u k) w
  = exec env k (mkWorld (applyUpdate u (ui w)) (inputValue w) (reads w) (analyzerCalls w)).
Proof. reflexivity. Qed.

Lemma exec_onloadend (env : Env) (result : option jsstring) (w : World) :
  exec env (onloadend result) w
  = mkWorld
      (match analyzeImage env result coinPrompt with
       | Fulfilled text => mkState result text false None
       | Rejected err => mkState result (analysis (ui w)) false
                                 (Some (errorMessage err))
       end)
      (inputValue w) (reads w) (analyzerCalls w ++ [(result, coinPrompt)]).
Proof.
  unfold onloadend. rewrite !exec_Do, exec_handleAnalyze. reflexivity.
Qed.

(** C9: for a file with an image type, a size within the limit and a read
    that succeeds with a data URI, the handler makes exactly one analyzer
    call, with that data URI and the fixed prompt; the image becomes the data
    URI and loading ends false; when the analyzer succeeds, the analysis text
    is its result and the error state is empty. *)
Theorem valid_upload_analyzes_once
    (env : Env) (file : File) (others : list File) (w : World) (dataUri : jsstring) :
  startsWith (lit "image/") (type file) = true ->
  (size file <= 20 * 1024 * 1024)%N ->
  fileReader env file = Loaded dataUri ->
  let w' := exec env (handleImageUpload (Some (file :: others))) w in
  analyzerCalls w' = analyzerCalls w ++ [(Some dataUri, coinPrompt)]
  /\ reads w' = reads w ++ [file]
  /\ image (ui w') = Some dataUri
  /\ loading (ui w') = false
  /\ match analyzeImage env (Some dataUri) coinPrompt with
     | Fulfilled result => analysis (ui w') = result /\ error (ui w') = None
     | Rejected err => analysis (ui w') = analysis (ui w)
                       /\ error (ui w') = Some (errorMessage err)
     end.
Proof.
  intros Ht Hs Hr w'. subst w'.
  rewrite (handleImageUpload_valid file others Ht Hs).
  cbn [exec]. rewrite Hr. cbn [readerCallbacks]. rewrite exec_onloadend. simpl.
  destruct (analyzeImage env (Some dataUri) coinPrompt); repeat split; reflexivity.
Qed.

Lemma valid_upload_analyzes_once_witness :
  let jpeg := mkFile (lit "image/jpeg") (1024 * 1024) in
  let uri := lit "data:image/jpeg;base64,/9j/4AAQ" in
  let env := mkEnv (fun _ => Loaded uri) (fun _ _ => Fulfilled (lit "1. Coin Identification:")) in
  let w := mkWorld (mkState None (lit "old") false (Some typeMessage)) (lit "coin.jpeg") [] [] in
  let w' := exec env (handleImageUpload (Some [jpeg])) w in
  analyzerCalls w' = [(Some uri, coinPrompt)]
  /\ analysis (ui w') = lit "1. Coin Identification:"
  /\ error (ui w') = None.
Proof.
  intros jpeg uri env w w'.
  destruct (valid_upload_analyzes_once env jpeg [] w uri) as (Hc & _ & _ & _ & Ha);
    [reflexivity | vm_compute; discriminate | reflexivity |].
  split; [exact Hc | exact Ha].
Defined.

(** C10: when the handler rejects a file for its type or its size, the
    image, the analysis text and the loading flag are what they were; only
    the error state is set, to the type or the size message, and neither the
    file input, the reader nor the analyzer is touched. *)
Theorem rejected_upload_frame (env : Env) (file : File) (others : list File) (w : World) :
  startsWith (lit "image/") (type file) = false
  \/ (20 * 1024 * 1024 < size file)%N ->
  let w' := exec env (handleImageUpload (Some (file :: others))) w in
  image (ui w') = image (ui w)
  /\ analysis (ui w') = analysis (ui w)
  /\ loading (ui w') = loading (ui w)
  /\ (error (ui w') = Some typeMessage \/ error (ui w') = Some sizeMessage)
  /\ inputValue w' = inputValue w
  /\ reads w' = reads w
  /\ analyzerCalls w' = analyzerCalls w.
Proof.
  intros H w'. subst w'.
  destruct (startsWith (lit "image/") (type file)) eqn:Ht.
  - destruct H as [H|H]; [discriminate|].
    rewrite (handleImageUpload_size file others Ht H). simpl.
    repeat split; try reflexivity. now right.
  - rewrite (handleImageUpload_type file others Ht). simpl.
    repeat split; try reflexivity. now left.
Qed.

Lemma rejected_upload_frame_witness :
  let shown := mkState (Some (lit "data:image/png;base64,iVBORw0KGgo="))
                       (lit "1. Coin Identification:") false None in
  let env := mkEnv (fun _ => ReadFailed) (fun _ _ => Rejected OtherValue) in
  let w := mkWorld shown (lit "notes.txt") [] [] in
  let big := exec env (handleImageUpload (Some [mkFile (lit "image/png") (25 * 1024 * 1024)])) w in
  let txt := exec env (handleImageUpload (Some [mkFile (lit "text/plain") 12])) w in
  (image (ui big) = image shown /\ analysis (ui big) = analysis shown
   /\ loading (ui big) = loading shown)
  /\ (image (ui txt) = image shown /\ analysis (ui txt) = analysis shown
      /\ loading (ui txt) = loading shown).
Proof.
  intros shown env w big txt. split.
  - destruct (rejected_upload_frame env (mkFile (lit "image/png") (25 * 1024 * 1024)) [] w)
      as (Hi & Ha & Hl & _); [right; vm_compute; reflexivity|].
    repeat split; assumption.
  - destruct (rejected_upload_frame env (mkFile (lit "text/plain") 12) [] w)
      as (Hi & Ha & Hl & _); [left; reflexivity|].
    repeat split; assumption.
Defined.

(** * Further properties of the formatter *)

(** What an emitted block says about its line: the inverse reading of
    [formatLine]. *)
Lemma formatLine_cases (line : jsstring) (index : nat) (e : element) :
  formatLine line index = Some e ->
  key e = index /\ cleanLine line <> [] /\
  ((exists digits rest,
       digits <> [] /\ forallb isDigit digits = true
       /\ cleanLine line = digits ++ dot :: rest
       /\ body e = SectionHeader (trimStart rest))
   \/ (testNumber (cleanLine line) = false
       /\ startsWith (lit "-") (cleanLine line) = true
       /\ includes colon (cleanLine line) = true
       /\ body e = LabeledField
                     (trim (beforeFirst colon (substring 1 (cleanLine line))))
                     (trim (afterFirst colon (substring 1 (cleanLine line)))))
   \/ (testNumber (cleanLine line) = false
       /\ startsWith (lit "-") (cleanLine line) = true
       /\ includes colon (cleanLine line) = false
       /\ body e = BulletItem (trim (substring 1 (cleanLine line))))
   \/ (testNumber (cleanLine line) = false
       /\ startsWith (lit "-") (cleanLine line) = false
       /\ body e = Paragraph (cleanLine line))).
Proof.
  intros H. split; [exact (formatLine_key _ _ _ H)|].
  assert (cleanLine line <> []) as Hne.
  { intros E. apply (formatLine_empty line index) in E. congruence. }
  split; [exact Hne|].
  destruct (testNumber (cleanLine line)) eqn:Et.
  - left. unfold testNumber in Et.
    destruct (afterNumber (cleanLine line)) as [rest|] eqn:Ea; [|discriminate].
    destruct (afterNumber_inv _ _ Ea) as (digits & Hd1 & Hd2 & Hc).
    exists digits, rest. repeat split; try assumption.
    rewrite (formatLine_header line digits rest index Hd1 Hd2 Hc) in H.
    now injection H as <-.
  - right. destruct (startsWith (lit "-") (cleanLine line)) eqn:Es.
    + destruct (includes colon (cleanLine line)) eqn:Ei.
      * left. rewrite (formatLine_labeled line index Es Ei) in H.
        injection H as <-. repeat split.
      * right; left. rewrite (formatLine_bullet line index Es Ei) in H.
        injection H as <-. repeat split.
    + right; right. unfold formatLine in H. rewrite Et, Es in H.
      destruct (cleanLine line); [congruence|]. simpl in H.
      injection H as <-. repeat split.
Qed.

(** X1: a line whose cleaned form is not empty, does not match [^\d+\.] and
    does not start with [-] yields a Paragraph carrying the whole cleaned
    line. *)
Theorem paragraph_line (text line : jsstring) (index : nat) :
  nth_error (split nl text) index = Some line ->
  cleanLine line <> [] ->
  testNumber (cleanLine line) = false ->
  startsWith (lit "-") (cleanLine line) = false ->
  formatLine line index = Some (mkElement index (Paragraph (cleanLine line)))
  /\ In (mkElement index (Paragraph (cleanLine line))) (formatAnalysis text).
Proof.
  intros Hn Hne Ht Hs.
  assert (formatLine line index = Some (mkElement index (Paragraph (cleanLine line)))) as Hf.
  { unfold formatLine. rewrite Ht, Hs. destruct (cleanLine line); [congruence|reflexivity]. }
  split; [exact Hf | exact (formatAnalysis_In text line index _ Hn Hf)].
Qed.

Lemma paragraph_line_witness :
  In (mkElement 1 (Paragraph (lit "About 24.26mm wide - see note: 3")))
     (formatAnalysis (lit "1. Size" ++ nl :: lit "  *About 24.26mm wide* - see note: 3 ")).
Proof.
  apply (paragraph_line (lit "1. Size" ++ nl :: lit "  *About 24.26mm wide* - see note: 3 ")
           (lit "  *About 24.26mm wide* - see note: 3 ") 1);
    [reflexivity | discriminate | reflexivity | reflexivity].
Defined.

(** X2: the shape of an emitted block tells the shape of its line: a
    SectionHeader comes only from a line whose cleaned form matches
    [^\d+\.], a LabeledField only from a dash line with a colon, a BulletItem
    only from a dash line without a colon, and a Paragraph only from a line
    that neither matches the number pattern nor starts with a dash, whose
    cleaned form it carries. *)
Theorem block_shape_tells_line (text : jsstring) (e : element) :
  In e (formatAnalysis text) ->
  exists line,
    nth_error (split nl text) (key e) = Some line
    /\ match body e with
       | SectionHeader _ => testNumber (cleanLine line) = true
       | LabeledField _ _ =>
           startsWith (lit "-") (cleanLine line) = true
           /\ includes colon (cleanLine line) = true
       | BulletItem _ =>
           startsWith (lit "-") (cleanLine line) = true
           /\ includes colon (cleanLine line) = false
       | Paragraph t =>
           t = cleanLine line
           /\ testNumber (cleanLine line) = false
           /\ startsWith (lit "-") (cleanLine line) = false
       end.
Proof.
  intros He. apply formatAnalysis_inv in He as (line & Hn & Hf).
  exists line. split; [exact Hn|].
  destruct (formatLine_cases _ _ _ Hf) as (_ & _ & Hc).
  destruct Hc as [(digits & rest & Hd1 & Hd2 & Hc & Hb)
                 |[(Ht & Hs & Hi & Hb)|[(Ht & Hs & Hi & Hb)|(Ht & Hs & Hb)]]];
    rewrite Hb; repeat split; try assumption.
  unfold testNumber. now rewrite Hc, (afterNumber_match digits rest Hd1 Hd2).
Qed.

Lemma block_shape_tells_line_witness :
  exists line,
    nth_error (split nl (lit "intro" ++ nl :: lit "- Year: 2000")) 1 = Some line
    /\ startsWith (lit "-") (cleanLine line) = true
    /\ includes colon (cleanLine line) = true.
Proof.
  apply (block_shape_tells_line (lit "intro" ++ nl :: lit "- Year: 2000")
           (mkElement 1 (LabeledField (lit "Year") (lit "2000")))).
  vm_compute. right. left. reflexivity.
Defined.

(** ** Where the displayed characters come from *)

Lemma dropWhile_incl (p : char -> bool) (s : jsstring) : incl (dropWhile p s) s.
Proof.
  induction s as [|x s IH]; simpl; [apply incl_refl|].
  destruct (p x); [now apply incl_tl | apply incl_refl].
Qed.

Lemma takeWhile_incl (p : char -> bool) (s : jsstring) : incl (takeWhile p s) s.
Proof.
  induction s as [|x s IH]; simpl; [apply incl_refl|].
  destruct (p x); [|intros y []].
  intros y [<-|Hy]; [now left | right; now apply IH].
Qed.

Lemma trim_incl (s : jsstring) : incl (trim s) s.
Proof.
  unfold trim, trimEnd, trimStart. intros c Hc.
  apply in_rev, dropWhile_incl, in_rev in Hc. now apply dropWhile_incl in Hc.
Qed.

Lemma tl_incl (s : jsstring) : incl (tl s) s.
Proof. destruct s; [apply incl_refl | now apply incl_tl, incl_refl]. Qed.

Lemma split_incl (c : char) (s line : jsstring) :
  In line (split c s) -> incl line s.
Proof.
  revert line. induction s as [|x s IH]; intros line; simpl.
  - intros [<-|[]]. apply incl_refl.
  - destruct (x =? c)%N.
    + intros [<-|H]; [intros y [] | now apply incl_tl, IH].
    + pose proof (split_nonempty c s) as Hs.
      destruct (split c s) as [|p ps]; [congruence|].
      intros [<-|H].
      * intros y [<-|Hy]; [now left | right; apply (IH p); [now left | exact Hy]].
      * apply incl_tl, IH. now right.
Qed.

Lemma removeMarkdown_spec (line : jsstring) (c : char) :
  In c (removeMarkdown line) <-> In c line /\ isMarkdown c = false.
Proof.
  unfold removeMarkdown. rewrite filter_In. now rewrite negb_true_iff.
Qed.

Lemma emitted_text_incl (line : jsstring) (index : nat) (e : element) (t : jsstring) :
  formatLine line index = Some e ->
  In t (blockTexts (body e)) ->
  incl t (cleanLine line).
Proof.
  intros Hf Ht. destruct (formatLine_cases _ _ _ Hf) as (_ & _ & Hc).
  destruct Hc as [(digits & rest & Hd1 & Hd2 & Hc & Hb)
                 |[(_ & Hs & Hi & Hb)|[(_ & Hs & Hi & Hb)|(_ & Hs & Hb)]]];
    rewrite Hb in Ht; simpl in Ht.
  - destruct Ht as [<-|[]]. rewrite Hc. intros c Hin.
    apply dropWhile_incl in Hin. apply in_or_app. right. now right.
  - assert (incl (substring 1 (cleanLine line)) (cleanLine line)) as Hsub
        by (destruct (cleanLine line); [apply incl_refl | now apply incl_tl, incl_refl]).
    destruct Ht as [<-|[<-|[]]]; intros c Hin; apply Hsub; apply trim_incl in Hin.
    + now apply takeWhile_incl in Hin.
    + apply tl_incl in Hin. now apply dropWhile_incl in Hin.
  - destruct Ht as [<-|[]]. intros c Hin. apply trim_incl in Hin.
    destruct (cleanLine line); [exact Hin | now right].
  - destruct Ht as [<-|[]]. apply incl_refl.
Qed.

(** X3: every character a block puts on the page is either a character of
    the input text or part of one of the two literals the markup adds (the
    colon written after a label, the bullet glyph), and none of them is one
    of [* _ # `]. *)
Theorem displayed_characters (text : jsstring) (e : element) (t : jsstring) (c : char) :
  In e (formatAnalysis text) ->
  In t (displayedTexts (body e)) ->
  In c t ->
  isMarkdown c = false
  /\ (In c text \/ c = colon \/ In c bulletGlyph).
Proof.
  intros He Ht Hc. apply formatAnalysis_inv in He as (line & Hn & Hf).
  assert (forall t0, In t0 (blockTexts (body e)) ->
          forall x, In x t0 -> isMarkdown x = false /\ In x text) as Hfrom.
  { intros t0 Ht0 x Hx. apply (emitted_text_incl _ _ _ _ Hf Ht0) in Hx.
    apply trim_incl, removeMarkdown_spec in Hx as [Hx Hm].
    split; [exact Hm|].
    apply nth_error_In in Hn. exact (split_incl nl text line Hn x Hx). }
  destruct (body e) as [title|lbl val|item|par]; simpl in Ht, Hfrom.
  - destruct Ht as [<-|[]].
    destruct (Hfrom title (or_introl eq_refl) c Hc) as [Hm Hin]. split; [exact Hm | now left].
  - destruct Ht as [<-|[<-|[]]].
    + apply in_app_or in Hc as [Hc|[<-|[]]].
      * destruct (Hfrom lbl (or_introl eq_refl) c Hc) as [Hm Hin].
        split; [exact Hm | now left].
      * split; [reflexivity | right; now left].
    + destruct (Hfrom val (or_intror (or_introl eq_refl)) c Hc) as [Hm Hin].
      split; [exact Hm | now left].
  - destruct Ht as [<-|[<-|[]]].
    + split; [|right; right; exact Hc].
      simpl in Hc. destruct Hc as [<-|[<-|[<-|[]]]]; reflexivity.
    + destruct (Hfrom item (or_introl eq_refl) c Hc) as [Hm Hin].
      split; [exact Hm | now left].
  - destruct Ht as [<-|[]].
    destruct (Hfrom par (or_introl eq_refl) c Hc) as [Hm Hin]. split; [exact Hm | now left].
Qed.

Lemma displayed_characters_witness :
  isMarkdown 89%N = false
  /\ (In 89%N (lit "- **Year**: `2000`") \/ 89%N = colon \/ In 89%N bulletGlyph).
Proof.
  apply (displayed_characters (lit "- **Year**: `2000`")
           (mkElement 0 (LabeledField (lit "Year") (lit "2000")))
           (lit "Year" ++ [colon]) 89%N).
  - vm_compute. left. reflexivity.
  - vm_compute. left. reflexivity.
  - vm_compute. left. reflexivity.
Defined.

(** ** Displayed strings are trimmed *)

Lemma dropWhile_snoc (p : char -> bool) (l : jsstring) (x : char) :
  p x = false -> exists l', dropWhile p (l ++ [x]) = l' ++ [x].
Proof.
  intros Hx. induction l as [|y l IH]; simpl.
  - rewrite Hx. now exists [].
  - destruct (p y); [exact IH | now exists (y :: l)].
Qed.

Lemma trimStart_trim (s : jsstring) : trimStart (trim s) = trim s.
Proof.
  unfold trim. destruct (trimStart s) as [|x r] eqn:E; [reflexivity|].
  assert (isWhiteSpace x = false) as Hx.
  { unfold trimStart in E. clear -E. induction s as [|y s IH]; simpl in E; [discriminate|].
    destruct (isWhiteSpace y) eqn:Ey; [now apply IH|]. now injection E as <- _. }
  unfold trimEnd at 1 2. simpl rev. unfold trimStart at 2 3.
  destruct (dropWhile_snoc isWhiteSpace (rev r) x Hx) as (l' & ->).
  rewrite rev_app_distr. simpl. unfold trimStart. simpl. now rewrite Hx.
Qed.

Lemma trim_idempotent (s : jsstring) : trim (trim s) = trim s.
Proof.
  unfold trim at 1. rewrite trimStart_trim. apply trimEnd_trim.
Qed.

(** X4: every string the formatter displays is trimmed: it has no leading
    and no trailing whitespace. *)
Theorem displayed_strings_trimmed (text : jsstring) (e : element) (t : jsstring) :
  In e (formatAnalysis text) ->
  In t (blockTexts (body e)) ->
  trim t = t /\ trimStart t = t /\ trimEnd t = t.
Proof.
  intros He Ht. apply formatAnalysis_inv in He as (line & Hn & Hf).
  assert (exists s, t = trim s) as (s & ->).
  { destruct (formatLine_cases _ _ _ Hf) as (_ & _ & Hc).
    destruct Hc as [(digits & rest & Hd1 & Hd2 & Hc & Hb)
                   |[(_ & Hs & Hi & Hb)|[(_ & Hs & Hi & Hb)|(_ & Hs & Hb)]]];
      rewrite Hb in Ht; simpl in Ht.
    - destruct Ht as [<-|[]]. exists rest. symmetry.
      apply (trimStart_suffix_trimmed (removeMarkdown line) (digits ++ [dot])).
      rewrite <- app_assoc. exact Hc.
    - destruct Ht as [<-|[<-|[]]]; eexists; reflexivity.
    - destruct Ht as [<-|[]]; eexists; reflexivity.
    - destruct Ht as [<-|[]]. now exists (removeMarkdown line). }
  split; [apply trim_idempotent|].
  split; [apply trimStart_trim | apply trimEnd_trim].
Qed.

Lemma displayed_strings_trimmed_witness :
  trim (lit "3 : 1") = lit "3 : 1".
Proof.
  apply (displayed_strings_trimmed (lit "  - Ratio :   3 : 1  ")
           (mkElement 0 (LabeledField (lit "Ratio") (lit "3 : 1"))) (lit "3 : 1")).
  - vm_compute. left. reflexivity.
  - vm_compute. right. left. reflexivity.
Defined.

(** ** Formatting is local to the lines *)

Lemma split_app (c : char) (a b : jsstring) :
  split c (a ++ c :: b) = split c a ++ split c b.
Proof.
  induction a as [|x a IH]; simpl.
  - now rewrite N.eqb_refl.
  - destruct (x =? c)%N; [now rewrite IH|].
    rewrite IH. pose proof (split_nonempty c a) as Ha.
    destruct (split c a); [congruence | reflexivity].
Qed.

Lemma mapi_app {A B : Type} (f : A -> nat -> B) (from : nat) (l1 l2 : list A) :
  mapi f from (l1 ++ l2) = mapi f from l1 ++ mapi f (from + length l1) l2.
Proof.
  revert from. induction l1 as [|x l1 IH]; intros from; simpl.
  - now rewrite Nat.add_0_r.
  - now rewrite IH, Nat.add_succ_r.
Qed.

Lemma filterBoolean_app {A : Type} (l1 l2 : list (option A)) :
  filterBoolean (l1 ++ l2) = filterBoolean l1 ++ filterBoolean l2.
Proof.
  induction l1 as [|[x|] l1 IH]; simpl; [reflexivity | now rewrite IH | exact IH].
Qed.

Lemma formatLine_shift (line : jsstring) (n index : nat) :
  formatLine line (n + index) = option_map (shiftKey n) (formatLine line index).
Proof.
  unfold formatLine.
  repeat match goal with
         | |- context [if ?b then _ else _] => destruct b
         end; reflexivity.
Qed.

Lemma formatLines_shift (lines : list jsstring) (n from : nat) :
  filterBoolean (mapi formatLine (n + from) lines)
  = map (shiftKey n) (filterBoolean (mapi formatLine from lines)).
Proof.
  revert from. induction lines as [|line lines IH]; intros from; [reflexivity|].
  simpl. rewrite formatLine_shift, <- Nat.add_succ_r, IH.
  destruct (formatLine line from); reflexivity.
Qed.

(** X5: formatting two texts joined by a line break gives the blocks of the
    first followed by the blocks of the second, whose keys are moved up by
    the number of lines of the first. *)
Theorem formatAnalysis_app (a b : jsstring) :
  formatAnalysis (a ++ nl :: b)
  = formatAnalysis a ++ map (shiftKey (length (split nl a))) (formatAnalysis b).
Proof.
  unfold formatAnalysis.
  rewrite split_app, mapi_app, filterBoolean_app. f_equal.
  rewrite <- formatLines_shift. f_equal. f_equal. simpl. lia.
Qed.

(** ** Blank texts *)

Lemma dropWhile_nil_iff (p : char -> bool) (s : jsstring) :
  dropWhile p s = [] <-> forallb p s = true.
Proof.
  induction s as [|x s IH]; simpl; [tauto|].
  destruct (p x); simpl; [exact IH|]. split; discriminate.
Qed.

Lemma forallb_rev (p : char -> bool) (s : jsstring) :
  forallb p (rev s) = forallb p s.
Proof.
  apply eq_true_iff_eq. rewrite !forallb_forall.
  split; intros H x Hx; apply H; [now apply in_rev in Hx | now apply in_rev].
Qed.

Lemma trim_nil_iff (s : jsstring) :
  trim s = [] <-> forallb isWhiteSpace s = true.
Proof.
  split.
  - intros H. pose proof (trimStart_trim s) as Hs. 
    unfold trim, trimEnd in H.
    apply (f_equal (@rev char)) in H. rewrite rev_involutive in H. simpl in H.
    apply dropWhile_nil_iff in H. rewrite forallb_rev in H.
    apply dropWhile_nil_iff. fold (trimStart (trimStart s)) in H.
    unfold trimStart in *. rewrite <- dropWhile_nil_iff in H.
    now rewrite dropWhile_idempotent in H.
  - intros H. apply dropWhile_nil_iff in H. unfold trim. fold (trimStart s) in H.
    now rewrite H.
Qed.

Lemma cleanLine_nil_iff (line : jsstring) :
  cleanLine line = []
  <-> forallb (fun c => isWhiteSpace c || isMarkdown c) line = true.
Proof.
  unfold cleanLine. rewrite trim_nil_iff, !forallb_forall. split.
  - intros H c Hc. destruct (isMarkdown c) eqn:Em; [apply orb_true_r|].
    rewrite (H c); [reflexivity|]. now apply removeMarkdown_spec.
  - intros H c Hc. apply removeMarkdown_spec in Hc as [Hc Hm].
    specialize (H c Hc). now rewrite Hm, orb_false_r in H.
Qed.

Lemma split_chars (c : char) (s : jsstring) (x : char) :
  In x s -> x <> c -> exists line, In line (split c s) /\ In x line.
Proof.
  intros Hx Hne. induction s as [|y s IH]; [contradiction|]. simpl.
  pose proof (split_nonempty c s) as Hs.
  destruct Hx as [->|Hx].
  - destruct (N.eqb_spec x c) as [|_]; [contradiction|].
    destruct (split c s) as [|p ps]; [congruence|].
    exists (x :: p). split; now left.
  - destruct (IH Hx) as (line & Hl & Hin).
    destruct (y =? c)%N; [exists line; split; [now right | exact Hin]|].
    destruct (split c s) as [|p ps]; [congruence|].
    destruct Hl as [<-|Hl].
    + exists (y :: p). split; [now left | now right].
    + exists line. split; [now right | exact Hin].
Qed.

Lemma formatAnalysis_nil_iff (text : jsstring) :
  formatAnalysis text = []
  <-> forall line, In line (split nl text) -> cleanLine line = [].
Proof.
  unfold formatAnalysis. generalize 0 as from. generalize (split nl text) as lines.
  induction lines as [|line lines IH]; intros from; simpl.
  - split; [intros _ l [] | reflexivity].
  - destruct (formatLine line from) as [e|] eqn:E.
    + split; [discriminate|]. intros H.
      assert (cleanLine line = []) as Hc by (apply H; now left).
      apply (formatLine_empty line from) in Hc. congruence.
    + apply formatLine_empty in E. rewrite IH. split.
      * intros H l [<-|Hl]; [exact E | now apply H].
      * intros H l Hl. apply H. now right.
Qed.

(** X6: the formatter emits no block at all exactly when every character of
    the text is whitespace (line breaks included) or one of [* _ # `]; the
    empty text is such a text. *)
Theorem formatAnalysis_blank (text : jsstring) :
  formatAnalysis text = []
  <-> forallb (fun c => isWhiteSpace c || isMarkdown c) text = true.
Proof.
  rewrite formatAnalysis_nil_iff, forallb_forall. split.
  - intros H c Hc.
    destruct (N.eqb_spec c nl) as [->|Hne]; [reflexivity|].
    destruct (split_chars nl text c Hc Hne) as (line & Hl & Hin).
    specialize (H line Hl). apply cleanLine_nil_iff in H.
    rewrite forallb_forall in H. now apply H.
  - intros H line Hl. apply cleanLine_nil_iff, forallb_forall.
    intros c Hc. apply H. exact (split_incl nl text line Hl c Hc).
Qed.

(** ** What does not change the output *)

Lemma split_filter (c : char) (p : char -> bool) (s : jsstring) :
  p c = true ->
  split c (filter p s) = map (filter p) (split c s).
Proof.
  intros Hc. induction s as [|x s IH]; [reflexivity|]. simpl.
  pose proof (split_nonempty c s) as Hs.
  destruct (N.eqb_spec x c) as [->|Hne].
  - rewrite Hc. simpl. now rewrite N.eqb_refl, IH.
  - destruct (p x) eqn:Ex; simpl.
    + apply N.eqb_neq in Hne. rewrite Hne, IH.
      destruct (split c s) as [|q qs]; [congruence|]. simpl. now rewrite Ex.
    + rewrite IH. destruct (split c s) as [|q qs]; [congruence|]. simpl. now rewrite Ex.
Qed.

Lemma removeMarkdown_idempotent (line : jsstring) :
  removeMarkdown (removeMarkdown line) = removeMarkdown line.
Proof.
  unfold removeMarkdown. induction line as [|x s IH]; [reflexivity|]. simpl.
  destruct (negb (isMarkdown x)) eqn:E; simpl; [now rewrite E, IH | exact IH].
Qed.

Lemma formatLine_removeMarkdown (line : jsstring) (index : nat) :
  formatLine (removeMarkdown line) index = formatLine line index.
Proof.
  unfold formatLine, cleanLine. now rewrite removeMarkdown_idempotent.
Qed.

Lemma mapi_map {A B C : Type} (f : B -> nat -> C) (g : A -> B) (from : nat) (l : list A) :
  mapi f from (map g l) = mapi (fun x i => f (g x) i) from l.
Proof.
  revert from. induction l as [|x l IH]; intros from; simpl; [reflexivity|].
  now rewrite IH.
Qed.

Lemma mapi_ext {A B : Type} (f g : A -> nat -> B) (from : nat) (l : list A) :
  (forall x i, f x i = g x i) -> mapi f from l = mapi g from l.
Proof.
  intros H. revert from. induction l as [|x l IH]; intros from; simpl; [reflexivity|].
  now rewrite H, IH.
Qed.

(** X7: removing the characters [* _ # `] from the whole text before
    formatting it changes nothing: the formatter gives the same blocks for the
    text with and without its markdown characters. *)
Theorem formatAnalysis_removeMarkdown (text : jsstring) :
  formatAnalysis (removeMarkdown text) = formatAnalysis text.
Proof.
  unfold formatAnalysis, removeMarkdown.
  rewrite split_filter by reflexivity. rewrite mapi_map. f_equal.
  apply mapi_ext. intros x i. apply formatLine_removeMarkdown.
Qed.

Lemma dropWhile_app_cases (p : char -> bool) (s b : jsstring) :
  dropWhile p (s ++ b)
  = if forallb p s then dropWhile p b else dropWhile p s ++ b.
Proof.
  induction s as [|x s IH]; simpl; [reflexivity|].
  destruct (p x); [exact IH | reflexivity].
Qed.

Lemma trim_padding (pre s post : jsstring) :
  forallb isWhiteSpace pre = true ->
  forallb isWhiteSpace post = true ->
  trim (pre ++ s ++ post) = trim s.
Proof.
  intros Hpre Hpost. unfold trim, trimStart.
  rewrite (dropWhile_app _ pre (s ++ post) Hpre), dropWhile_app_cases.
  destruct (forallb isWhiteSpace s) eqn:Es.
  - apply dropWhile_nil_iff in Hpost. apply dropWhile_nil_iff in Es.
    now rewrite Hpost, Es.
  - unfold trimEnd, trimStart. rewrite rev_app_distr.
    rewrite dropWhile_app; [reflexivity|]. now rewrite forallb_rev.
Qed.

Lemma removeMarkdown_whitespace (s : jsstring) :
  forallb isWhiteSpace s = true ->
  forallb isWhiteSpace (removeMarkdown s) = true.
Proof.
  rewrite !forallb_forall. intros H c Hc.
  apply removeMarkdown_spec in Hc as [Hc _]. now apply H.
Qed.

(** X8: whitespace around a line does not matter: a line with any
    whitespace before it and after it (indentation, a trailing carriage
    return) gives the same block as the line itself. *)
Theorem formatLine_padding (pre line post : jsstring) (index : nat) :
  forallb isWhiteSpace pre = true ->
  forallb isWhiteSpace post = true ->
  formatLine (pre ++ line ++ post) index = formatLine line index.
Proof.
  intros Hpre Hpost.
  assert (cleanLine (pre ++ line ++ post) = cleanLine line) as Hc.
  { unfold cleanLine, removeMarkdown. rewrite !filter_app.
    apply trim_padding; now apply removeMarkdown_whitespace. }
  unfold formatLine. now rewrite Hc.
Qed.

Lemma formatLine_padding_witness :
  formatLine (lit "   - Year: 2000" ++ [13%N]) 4
  = Some (mkElement 4 (LabeledField (lit "Year") (lit "2000"))).
Proof.
  apply (formatLine_padding (lit "   ") (lit "- Year: 2000") [13%N] 4); reflexivity.
Defined.

(** ** The keys *)

Lemma formatLines_keys_sorted (lines : list jsstring) (from : nat) :
  StronglySorted lt (map key (filterBoolean (mapi formatLine from lines)))
  /\ Forall (fun k => from <= k < from + length lines)
            (map key (filterBoolean (mapi formatLine from lines))).
Proof.
  revert from. induction lines as [|line lines IH]; intros from; simpl.
  - split; constructor.
  - destruct (IH (S from)) as [Hs Hb].
    assert (Forall (fun k => from <= k < from + S (length lines))
              (map key (filterBoolean (mapi formatLine (S from) lines)))) as Hb'.
    { eapply Forall_impl; [|exact Hb]. simpl. intros k Hk. lia. }
    destruct (formatLine line from) as [e|] eqn:E; [|now split].
    simpl. rewrite (formatLine_key _ _ _ E). split.
    + constructor; [exact Hs|]. eapply Forall_impl; [|exact Hb]. simpl. intros k Hk. lia.
    + constructor; [lia | exact Hb'].
Qed.

Lemma sorted_lt_NoDup (l : list nat) : StronglySorted lt l -> NoDup l.
Proof.
  induction 1 as [|x l Hs IH Hx]; constructor; [|exact IH].
  intros Hin. rewrite Forall_forall in Hx. specialize (Hx x Hin). lia.
Qed.

(** X9: the React keys of the emitted blocks are strictly increasing, hence
    pairwise distinct, and each is the index of a line of the text; so there
    are at most as many blocks as lines. *)
Theorem keys_increasing (text : jsstring) :
  StronglySorted lt (map key (formatAnalysis text))
  /\ NoDup (map key (formatAnalysis text))
  /\ Forall (fun k => k < length (split nl text)) (map key (formatAnalysis text))
  /\ length (formatAnalysis text) <= length (split nl text).
Proof.
  destruct (formatLines_keys_sorted (split nl text) 0) as [Hs Hb].
  fold (formatAnalysis text) in Hs, Hb.
  split; [exact Hs|]. split; [now apply sorted_lt_NoDup|]. split.
  - eapply Forall_impl; [|exact Hb]. simpl. intros k Hk. lia.
  - unfold formatAnalysis. rewrite filterBoolean_length_from. apply filter_length_le.
Qed.

(** * Further properties of the controller *)

(** What the reader gives [onloadend] as [reader.result]. *)
Lemma exec_readerCallbacks (env : Env) (r : readEnd) (w : World) :
  let result := match r with Loaded u => Some u | ReadFailed => None end in
  exec env (readerCallbacks r) w
  = mkWorld
      (match analyzeImage env result coinPrompt with
       | Fulfilled text => mkState result text false None
       | Rejected err => mkState result (analysis (ui w)) false
                                 (Some (errorMessage err))
       end)
      (inputValue w) (reads w) (analyzerCalls w ++ [(result, coinPrompt)]).
Proof.
  destruct r as [u|]; cbn [readerCallbacks].
  - apply exec_onloadend.
  - unfold onerror. cbn [andThen]. rewrite exec_Do, exec_onloadend. reflexivity.
Qed.

Lemma exec_upload_accepted (env : Env) (file : File) (others : list File) (w : World) :
  startsWith (lit "image/") (type file) = true ->
  (size file <= 20 * 1024 * 1024)%N ->
  exec env (handleImageUpload (Some (file :: others))) w
  = exec env (readerCallbacks (fileReader env file))
         (mkWorld (ui w) [] (reads w ++ [file]) (analyzerCalls w)).
Proof.
  intros Ht Hs. now rewrite (handleImageUpload_valid file others Ht Hs).
Qed.

(** With no file selected (no file list, or an empty one) the upload
    handler does nothing at all, and of several selected files only the
    first is looked at. *)
Lemma upload_first_file_only (env : Env) (file : File) (others : list File) (w : World) :
  exec env (handleImageUpload None) w = w
  /\ exec env (handleImageUpload (Some [])) w = w
  /\ handleImageUpload (Some (file :: others)) = handleImageUpload (Some [file]).
Proof. repeat split. Qed.

(** X11: a file that passes both checks is read exactly once and leads to
    exactly one analyzer call, however the read and the analysis end: the
    call carries the reader's result ([null] after a failed read) and the
    fixed prompt, the file input is reset, the image is the reader's result
    and loading ends false. *)
Theorem accepted_upload_effects (env : Env) (file : File) (others : list File) (w : World) :
  startsWith (lit "image/") (type file) = true ->
  (size file <= 20 * 1024 * 1024)%N ->
  let w' := exec env (handleImageUpload (Some (file :: others))) w in
  let result := match fileReader env file with
                | Loaded u => Some u
                | ReadFailed => None
                end in
  reads w' = reads w ++ [file]
  /\ inputValue w' = []
  /\ analyzerCalls w' = analyzerCalls w ++ [(result, coinPrompt)]
  /\ image (ui w') = result
  /\ loading (ui w') = false.
Proof.
  intros Ht Hs w' result. subst w'.
  rewrite (exec_upload_accepted env file others w Ht Hs), exec_readerCallbacks.
  fold result. simpl.
  destruct (analyzeImage env result coinPrompt); repeat split.
Qed.

Lemma accepted_upload_effects_witness :
  let png := mkFile (lit "image/png") 2048 in
  let env := mkEnv (fun _ => ReadFailed) (fun _ _ => Rejected OtherValue) in
  let w := mkWorld (mkState None [] false None) (lit "coin.png") [] [] in
  let w' := exec env (handleImageUpload (Some [png])) w in
  reads w' = [png] /\ inputValue w' = [] /\ analyzerCalls w' = [(None, coinPrompt)].
Proof.
  intros png env w w'.
  destruct (accepted_upload_effects env png [] w) as (Hr & Hi & Hc & _);
    [reflexivity | vm_compute; discriminate |].
  repeat split; assumption.
Defined.

(** X12: when the read of an accepted file fails, [onerror] and then
    [onloadend] run: the image is set to [null], the analyzer is called with
    [null], and the message of the failed read does not remain; the error
    state is empty when the analyzer succeeds and the analyzer's error
    otherwise. *)
Theorem failed_read_still_analyzes (env : Env) (file : File) (others : list File) (w : World) :
  startsWith (lit "image/") (type file) = true ->
  (size file <= 20 * 1024 * 1024)%N ->
  fileReader env file = ReadFailed ->
  let w' := exec env (handleImageUpload (Some (file :: others))) w in
  image (ui w') = None
  /\ analyzerCalls w' = analyzerCalls w ++ [(None, coinPrompt)]
  /\ match analyzeImage env None coinPrompt with
     | Fulfilled result => analysis (ui w') = result /\ error (ui w') = None
     | Rejected err => analysis (ui w') = analysis (ui w)
                       /\ error (ui w') = Some (errorMessage err)
     end.
Proof.
  intros Ht Hs Hr w'. subst w'.
  rewrite (exec_upload_accepted env file others w Ht Hs), Hr, exec_readerCallbacks.
  simpl. destruct (analyzeImage env None coinPrompt); repeat split.
Qed.

Lemma failed_read_still_analyzes_witness :
  let jpeg := mkFile (lit "image/jpeg") 4096 in
  let env := mkEnv (fun _ => ReadFailed) (fun _ _ => Fulfilled (lit "1. Unknown coin")) in
  let shown := mkState (Some (lit "data:image/png;base64,AAAA")) (lit "old") false None in
  let w' := exec env (handleImageUpload (Some [jpeg])) (mkWorld shown [] [] []) in
  image (ui w') = None /\ analysis (ui w') = lit "1. Unknown coin" /\ error (ui w') = None.
Proof.
  intros jpeg env shown w'.
  destruct (failed_read_still_analyzes env jpeg [] (mkWorld shown [] [] []))
    as (Hi & _ & Ha & He); [reflexivity | vm_compute; discriminate | reflexivity |].
  repeat split; assumption.
Defined.

(** X13: [handleAnalyze] makes exactly one analyzer call, with the image
    data it was given and the fixed prompt, and never changes the image, the
    file input or the reads. *)
Theorem analyze_frame (env : Env) (imageData : option jsstring) (w : World) :
  let w' := exec env (handleAnalyze imageData) w in
  analyzerCalls w' = analyzerCalls w ++ [(imageData, coinPrompt)]
  /\ image (ui w') = image (ui w)
  /\ inputValue w' = inputValue w
  /\ reads w' = reads w.
Proof.
  intros w'. subst w'. rewrite exec_handleAnalyze. simpl.
  destruct (analyzeImage env imageData coinPrompt); repeat split.
Qed.

(** ** The default content *)

Lemma exec_loadDefaultContent (env : Env) (fetched : option response) (w : World) :
  exec env (loadDefaultContent fetched) w
  = mkWorld
      (match fetched with
       | Some (mkResponse true (Some (Loaded base64data))) =>
           mkState (Some base64data) DEFAULT_ANALYSIS false (error (ui w))
       | Some (mkResponse true (Some ReadFailed)) =>
           mkState None DEFAULT_ANALYSIS false (Some loadMessage)
       | _ => mkState (image (ui w)) (analysis (ui w)) false (Some loadMessage)
       end)
      (inputValue w) (reads w) (analyzerCalls w).
Proof.
  destruct fetched as [[[|] [[base64data|]|]]|]; reflexivity.
Qed.

(** X14: loading the default content never calls the analyzer, starts no
    read of an uploaded file and leaves the file input alone, however the
    fetch and the read end; and it always ends with loading false. *)
Theorem load_default_offline (env : Env) (fetched : option response) (w : World) :
  let w' := exec env (loadDefaultContent fetched) w in
  analyzerCalls w' = analyzerCalls w
  /\ reads w' = reads w
  /\ inputValue w' = inputValue w
  /\ loading (ui w') = false.
Proof.
  intros w'. subst w'. rewrite exec_loadDefaultContent.
  destruct fetched as [[[|] [[base64data|]|]]|]; repeat split.
Qed.

(** X15: the outcomes of loading the default content.  When the image is
    fetched and read, it becomes the image and the analysis text becomes
    [DEFAULT_ANALYSIS], the error state being left as it was.  When the read
    fails, the image is [null], the analysis text is still set to
    [DEFAULT_ANALYSIS] and the error is the load message.  When the fetch
    rejects, the response is not ok or its blob cannot be had, only the
    error is set, to the load message. *)
Theorem load_default_outcome (env : Env) (fetched : option response) (w : World) :
  let st := ui w in
  let st' := ui (exec env (loadDefaultContent fetched) w) in
  match fetched with
  | Some (mkResponse true (Some (Loaded base64data))) =>
      st' = mkState (Some base64data) DEFAULT_ANALYSIS false (error st)
  | Some (mkResponse true (Some ReadFailed)) =>
      st' = mkState None DEFAULT_ANALYSIS false (Some loadMessage)
  | _ =>
      st' = mkState (image st) (analysis st) false (Some loadMessage)
  end.
Proof.
  intros st st'. subst st st'. rewrite exec_loadDefaultContent.
  destruct fetched as [[[|] [[base64data|]|]]|]; reflexivity.
Qed.

(** ** The identify button *)

Lemma exec_clickIdentify (env : Env) (w : World) :
  exec env (clickIdentify (ui w)) w
  = if truthy (image (ui w)) && negb (loading (ui w))
    then exec env (handleAnalyze (image (ui w))) w
    else w.
Proof.
  unfold clickIdentify, render. cbn [previewPane].
  destruct (image (ui w)) as [[|c s]|]; simpl truthy; cbn [andb];
    try reflexivity.
  cbn [disabled src]. destruct (loading (ui w)); reflexivity.
Qed.

(** X16: a click on the identify button analyzes the image on display
    without reading any file: when an image is shown and nothing is loading,
    it makes one analyzer call with that image and the fixed prompt and keeps
    the image; when no image is shown, or while loading (the button is then
    disabled), it does nothing. *)
Theorem identify_click (env : Env) (w : World) :
  let w' := exec env (clickIdentify (ui w)) w in
  if truthy (image (ui w)) && negb (loading (ui w))
  then analyzerCalls w' = analyzerCalls w ++ [(image (ui w), coinPrompt)]
       /\ image (ui w') = image (ui w)
       /\ reads w' = reads w
       /\ inputValue w' = inputValue w
       /\ loading (ui w') = false
  else w' = w.
Proof.
  intros w'. subst w'. rewrite exec_clickIdentify.
  destruct (truthy (image (ui w)) && negb (loading (ui w))); [|reflexivity].
  rewrite exec_handleAnalyze. simpl.
  destruct (analyzeImage env (image (ui w)) coinPrompt); repeat split.
Qed.

(** ** Sequences of events *)

Lemma step_shape (env : Env) (w : World) (ev : event) :
  exists calls files,
    analyzerCalls (step env w ev) = analyzerCalls w ++ calls
    /\ reads (step env w ev) = reads w ++ files
    /\ length calls <= match ev with LoadDefault _ => 0 | _ => 1 end
    /\ length files <= length calls
    /\ Forall (fun c => snd c = coinPrompt) calls
    /\ Forall (fun f => startsWith (lit "image/") (type f) = true
                        /\ (size f <= 20 * 1024 * 1024)%N) files
    /\ (loading (ui w) = false -> loading (ui (step env w ev)) = false).
Proof.
  unfold step. destruct ev as [fetched|files|]; cbn [dispatch].
  - exists [], []. rewrite exec_loadDefaultContent. cbn [analyzerCalls reads ui].
    rewrite !app_nil_r.
    repeat split; try lia; try (now constructor).
    destruct fetched as [[[|] [[base64data|]|]]|]; reflexivity.
  - assert (forall h, exec env h w = w ->
              exists calls files,
                analyzerCalls (exec env h w) = analyzerCalls w ++ calls
                /\ reads (exec env h w) = reads w ++ files
                /\ length calls <= 1
                /\ length files <= length calls
                /\ Forall (fun c => snd c = coinPrompt) calls
                /\ Forall (fun f => startsWith (lit "image/") (type f) = true
                                    /\ (size f <= 20 * 1024 * 1024)%N) files
                /\ (loading (ui w) = false -> loading (ui (exec env h w)) = false))
      as Hidle.
    { intros h ->. exists [], []. rewrite !app_nil_r. simpl.
      repeat split; try lia; try (now constructor); auto. }
    destruct files as [[|file others]|]; [now apply Hidle | | now apply Hidle].
    clear Hidle.
    destruct (startsWith (lit "image/") (type file)) eqn:Ht.
    + destruct (N.lt_ge_cases (20 * 1024 * 1024) (size file)) as [Hs|Hs].
      * exists [], []. rewrite (handleImageUpload_size file others Ht Hs).
        simpl. rewrite !app_nil_r. repeat split; try lia; try (now constructor); auto.
      * exists [(match fileReader env file with Loaded u => Some u | ReadFailed => None end,
                 coinPrompt)], [file].
        rewrite (exec_upload_accepted env file others w Ht Hs), exec_readerCallbacks.
        cbn [analyzerCalls reads ui]. repeat split; try (simpl; lia); try (now repeat constructor).
        destruct (analyzeImage env _ coinPrompt); reflexivity.
    + exists [], []. rewrite (handleImageUpload_type file others Ht).
      simpl. rewrite !app_nil_r. repeat split; try lia; try (now constructor); auto.
  - rewrite exec_clickIdentify.
    destruct (truthy (image (ui w)) && negb (loading (ui w))).
    + exists [(image (ui w), coinPrompt)], []. rewrite exec_handleAnalyze.
      cbn [analyzerCalls reads ui]. rewrite app_nil_r.
      repeat split; try (simpl; lia); try (now repeat constructor).
      destruct (analyzeImage env _ coinPrompt); reflexivity.
    + exists [], []. rewrite !app_nil_r. repeat split; try lia; try (now constructor); auto.
Qed.

Lemma run_shape (env : Env) (evs : list event) (w : World) :
  exists calls files,
    analyzerCalls (run env evs w) = analyzerCalls w ++ calls
    /\ reads (run env evs w) = reads w ++ files
    /\ length calls
       <= length (filter (fun ev => match ev with LoadDefault _ => false | _ => true end) evs)
    /\ length files <= length calls
    /\ Forall (fun c => snd c = coinPrompt) calls
    /\ Forall (fun f => startsWith (lit "image/") (type f) = true
                        /\ (size f <= 20 * 1024 * 1024)%N) files
    /\ (loading (ui w) = false -> loading (ui (run env evs w)) = false).
Proof.
  revert w. induction evs as [|ev evs IH]; intros w.
  - exists [], []. simpl. rewrite !app_nil_r. repeat split; try lia; try (now constructor); auto.
  - destruct (step_shape env w ev) as (c1 & f1 & Hc1 & Hf1 & Hl1 & Hlf1 & Hp1 & Hv1 & Hload1).
    destruct (IH (step env w ev)) as (c2 & f2 & Hc2 & Hf2 & Hl2 & Hlf2 & Hp2 & Hv2 & Hload2).
    exists (c1 ++ c2), (f1 ++ f2). unfold run in *. cbn [fold_left].
    rewrite Hc2, Hc1, Hf2, Hf1, !app_assoc. rewrite !length_app.
    repeat split.
    + cbn [filter]. destruct ev; simpl in *; lia.
    + lia.
    + apply Forall_app; now split.
    + apply Forall_app; now split.
    + intros H. apply Hload2, Hload1, H.
Qed.

(** X17: after any sequence of page loads, uploads and identify clicks from
    the initial page, each handler having run to its end, the loading flag is
    false. *)
Theorem loading_ends_false (env : Env) (evs : list event) :
  loading (ui (run env evs initial)) = false.
Proof.
  destruct (run_shape env evs initial) as (_ & _ & _ & _ & _ & _ & _ & _ & H).
  now apply H.
Qed.

(** X18: over any sequence of events from the initial page, every analyzer
    call carries the fixed coin prompt, there is at most one call per upload
    or identify click (none for loading the default content), so nothing is
    retried, and every read of an uploaded file is followed by a call. *)
Theorem analyzer_calls_bounded (env : Env) (evs : list event) :
  let w := run env evs initial in
  Forall (fun c => snd c = coinPrompt) (analyzerCalls w)
  /\ length (analyzerCalls w)
     <= length (filter (fun ev => match ev with LoadDefault _ => false | _ => true end) evs)
  /\ length (reads w) <= length (analyzerCalls w).
Proof.
  intros w. subst w.
  destruct (run_shape env evs initial) as (calls & files & Hc & Hf & Hl & Hlf & Hp & _).
  rewrite Hc, Hf. simpl. repeat split; assumption.
Qed.

(** X19: over any sequence of events from the initial page, the reader is
    only ever given uploaded files whose type starts with [image/] and whose
    size is at most 20*1024*1024 bytes. *)
Theorem only_valid_files_read (env : Env) (evs : list event) :
  Forall (fun f => startsWith (lit "image/") (type f) = true
                   /\ (size f <= 20 * 1024 * 1024)%N)
         (reads (run env evs initial)).
Proof.
  destruct (run_shape env evs initial) as (calls & files & _ & Hf & _ & _ & _ & Hv & _).
  rewrite Hf. exact Hv.
Qed.

(** ** What the page shows *)

(** X20: when the analyzer fails with an [Error] whose message is empty, the
    error state is the empty string, which the view treats as no error: no
    error banner is shown, and the results shown are those of before. *)
Theorem empty_error_message_hidden (env : Env) (imageData : option jsstring) (w : World) :
  analyzeImage env imageData coinPrompt = Rejected (ErrorInstance []) ->
  let st' := ui (exec env (handleAnalyze imageData) w) in
  error st' = Some []
  /\ errorBanner (render st') = None
  /\ results (render st') = results (render (ui w)).
Proof.
  intros H st'. subst st'. rewrite exec_handleAnalyze, H. repeat split.
Qed.

Lemma empty_error_message_hidden_witness :
  let env := mkEnv (fun _ => ReadFailed) (fun _ _ => Rejected (ErrorInstance [])) in
  let w := mkWorld (mkState (Some (lit "data:,")) (lit "- Year: 2000") false None) [] [] [] in
  errorBanner (render (ui (exec env (handleAnalyze (Some (lit "data:,"))) w))) = None.
Proof.
  intros env w.
  apply (empty_error_message_hidden env (Some (lit "data:,")) w). reflexivity.
Defined.

(** [exec] is the schedule in which every suspended handler is resumed
    at once, in order, before anything else runs. *)
Lemma exec_runSync (env : Env) (h : handler) (w : World) :
  exec env h w
  = fold_left (fun w' p => exec env (resume env p) w')
              (snd (runSync h w)) (fst (runSync h w)).
Proof.
  revert w. induction h as [|u k IH|k IH|file rest IHrest k IHk|imageData prompt k IHk];
    intros w; cbn [exec runSync].
  - reflexivity.
  - apply IH.
  - apply IH.
  - cbv zeta. cbn [fst snd]. rewrite fold_left_app. cbn [fold_left resume].
    now rewrite <- IHrest.
  - reflexivity.
Qed.

(** X21: an accepted upload runs as three tasks, between which other
    handlers may run.  The handler starts the read and resets the file input
    without touching the four state cells.  When the read ends with a
    non-empty data URI, the callback, from any state of the page, sets the
    image to it, clears the error, sets loading and calls the analyzer with
    it and the fixed prompt.  When that call is fulfilled, the continuation
    suspends no more, and from any state of the page in which the image and
    the empty error are still as the callback left them, it leaves a page
    that shows no error banner, no spinner, that picture with an enabled
    identify button and the formatted result (nothing for an empty
    result). *)
Theorem successful_upload_view
    (file : File) (others : list File) (c : char) (uri result : jsstring)
    (w0 w1 w2 : World) :
  startsWith (lit "image/") (type file) = true ->
  (size file <= 20 * 1024 * 1024)%N ->
  image (ui w2) = Some (c :: uri) ->
  error (ui w2) = None ->
  exists onRead onAnalyzed,
    runSync (handleImageUpload (Some (file :: others))) w0
    = (mkWorld (ui w0) [] (reads w0 ++ [file]) (analyzerCalls w0),
       [PendingRead file onRead])
    /\ runSync (onRead (Loaded (c :: uri))) w1
       = (mkWorld (mkState (Some (c :: uri)) (analysis (ui w1)) true None)
                  (inputValue w1) (reads w1)
                  (analyzerCalls w1 ++ [(Some (c :: uri), coinPrompt)]),
          [PendingAnalyze (Some (c :: uri)) coinPrompt onAnalyzed])
    /\ snd (runSync (onAnalyzed (Fulfilled result)) w2) = []
    /\ render (ui (fst (runSync (onAnalyzed (Fulfilled result)) w2)))
       = mkView None false
           (Some (mkPreview (c :: uri) false IdentifyCoin))
           (if isEmpty result then None else Some (formatAnalysis result)).
Proof.
  intros Ht Hs Hi He.
  exists readerCallbacks.
  exists (fun s => andThen
                     match s with
                     | Fulfilled r => Do (SetAnalysis r) Return
                     | Rejected err => Do (SetError (Some (errorMessage err))) Return
                     end
                     (Do (SetLoading false) Return)).
  rewrite (handleImageUpload_valid file others Ht Hs).
  split; [reflexivity|]. split; [reflexivity|]. split; [reflexivity|].
  cbn [andThen runSync fst ui applyUpdate]. unfold render.
  cbn [image analysis loading error]. unfold renderAnalysis. cbn [analysis].
  unfold jsstring in *. rewrite Hi, He. reflexivity.
Qed.

Lemma successful_upload_view_witness :
  exists onRead onAnalyzed,
    runSync (handleImageUpload (Some [mkFile (lit "image/jpeg") (1024 * 1024)])) initial
    = (mkWorld (ui initial) [] [mkFile (lit "image/jpeg") (1024 * 1024)] [],
       [PendingRead (mkFile (lit "image/jpeg") (1024 * 1024)) onRead])
    /\ runSync (onRead (Loaded (lit "data:image/jpeg;base64,/9j/")))
               (mkWorld (mkState None (lit "old") false (Some sizeMessage)) [] [] [])
       = (mkWorld (mkState (Some (lit "data:image/jpeg;base64,/9j/")) (lit "old") true None)
                  [] [] [(Some (lit "data:image/jpeg;base64,/9j/"), coinPrompt)],
          [PendingAnalyze (Some (lit "data:image/jpeg;base64,/9j/")) coinPrompt onAnalyzed])
    /\ snd (runSync (onAnalyzed (Fulfilled (lit "- Year: 2000")))
                    (mkWorld (mkState (Some (lit "data:image/jpeg;base64,/9j/")) (lit "old")
                                      false None) [] [] []))
       = []
    /\ render (ui (fst (runSync (onAnalyzed (Fulfilled (lit "- Year: 2000")))
                                (mkWorld (mkState (Some (lit "data:image/jpeg;base64,/9j/"))
                                                  (lit "old") false None) [] [] []))))
       = mkView None false
           (Some (mkPreview (lit "data:image/jpeg;base64,/9j/") false IdentifyCoin))
           (Some [mkElement 0 (LabeledField (lit "Year") (lit "2000"))]).
Proof.
  apply (successful_upload_view (mkFile (lit "image/jpeg") (1024 * 1024)) []
           100%N (lit "ata:image/jpeg;base64,/9j/") (lit "- Year: 2000")
           initial
           (mkWorld (mkState None (lit "old") false (Some sizeMessage)) [] [] [])
           (mkWorld (mkState (Some (lit "data:image/jpeg;base64,/9j/")) (lit "old")
                             false None) [] [] []));
    [reflexivity | vm_compute; discriminate | reflexivity | reflexivity].
Defined.

(** X22: a rejected upload changes nothing of the page but the error
    banner, which then shows the type or the size message: the spinner, the
    picture with its button and the results stay as they were. *)
Theorem rejected_upload_view (env : Env) (file : File) (others : list File) (w : World) :
  startsWith (lit "image/") (type file) = false
  \/ (20 * 1024 * 1024 < size file)%N ->
  let v := render (ui w) in
  let v' := render (ui (exec env (handleImageUpload (Some (file :: others))) w)) in
  spinner v' = spinner v
  /\ previewPane v' = previewPane v
  /\ results v' = results v
  /\ (errorBanner v' = Some typeMessage \/ errorBanner v' = Some sizeMessage).
Proof.
  intros H v v'. subst v v'.
  destruct (startsWith (lit "image/") (type file)) eqn:Ht.
  - destruct H as [H|H]; [discriminate|].
    rewrite (handleImageUpload_size file others Ht H).
    repeat split. now right.
  - rewrite (handleImageUpload_type file others Ht).
    repeat split. now left.
Qed.

Lemma rejected_upload_view_witness :
  let shown := mkState (Some (lit "data:image/png;base64,iVBORw0KGgo="))
                       (lit "1. Coin Identification:") false None in
  let env := mkEnv (fun _ => ReadFailed) (fun _ _ => Rejected OtherValue) in
  let w := mkWorld shown [] [] [] in
  let v' := render (ui (exec env (handleImageUpload (Some [mkFile (lit "application/pdf") 10])) w)) in
  previewPane v' = previewPane (render shown) /\ results v' = results (render shown).
Proof.
  intros shown env w v'.
  destruct (rejected_upload_view env (mkFile (lit "application/pdf") 10) [] w)
    as (_ & Hp & Hr & _); [left; reflexivity|].
  split; assumption.
Defined.

(** * Colons in what is displayed *)

Lemma includes_In (c : char) (s : jsstring) : includes c s = true <-> In c s.
Proof.
  unfold includes. rewrite existsb_exists. split.
  - intros (x & Hx & E). apply N.eqb_eq in E. now subst x.
  - intros H. exists c. split; [exact H | apply N.eqb_refl].
Qed.

Lemma includes_incl (c : char) (s t : jsstring) :
  incl t s -> includes c s = false -> includes c t = false.
Proof.
  intros Hi Hs. destruct (includes c t) eqn:Et; [|reflexivity].
  apply includes_In, Hi, includes_In in Et. congruence.
Qed.

(** X10: the label of an emitted LabeledField never contains a colon (the
    colon shown after it is the only one), and neither does the text of an
    emitted BulletItem. *)
Theorem labels_have_no_colon (text : jsstring) (e : element) :
  In e (formatAnalysis text) ->
  match body e with
  | LabeledField label _ => includes colon label = false
  | BulletItem t => includes colon t = false
  | _ => True
  end.
Proof.
  intros He. apply formatAnalysis_inv in He as (line & _ & Hf).
  destruct (formatLine_cases _ _ _ Hf) as (_ & _ & Hc).
  destruct Hc as [(digits & rest & _ & _ & _ & Hb)
                 |[(_ & Hs & Hi & Hb)|[(_ & Hs & Hi & Hb)|(_ & Hs & Hb)]]];
    rewrite Hb; try exact I.
  - apply (includes_incl colon _ _ (trim_incl _)), beforeFirst_excludes.
  - apply (includes_incl colon (cleanLine line)); [|exact Hi].
    intros c Hc. apply trim_incl in Hc.
    destruct (cleanLine line); [exact Hc | now right].
Qed.

Lemma labels_have_no_colon_witness :
  includes colon (lit "Ratio") = false.
Proof.
  apply (labels_have_no_colon (lit "- Ratio: 3:1")
           (mkElement 0 (LabeledField (lit "Ratio") (lit "3:1")))).
  vm_compute. left. reflexivity.
Defined.
